(** * The diff parser of the PR review agent

    A shallow embedding of [src/pr_agent/diff_parser.py] and of the part of
    the [unidiff] package it is written against, followed by the properties
    of the parser that the design document states.

    Python values are modelled as follows.
    - [str] is [string]; a character is a code point below 256.
    - [int] is [Z]; [Optional[int]] is [option Z].
    - a [list] is a [list]; the [Dict[str, ...]] results are [gmap string _].
    - a call that can raise returns a [result]. *)

From Stdlib Require Import ZArith List String Ascii Lia Bool Sorted.
From stdpp Require Import gmap strings list.
Import ListNotations.

Open Scope string_scope.
Open Scope list_scope.
Open Scope Z_scope.

(** ** Python strings and truthiness *)

Module Py.

Definition LF : ascii := "010"%char.
Definition CR : ascii := "013"%char.
Definition TAB : ascii := "009"%char.
Definition DQUOTE : ascii := "034"%char.

(** [str.isspace] on one character: the code points 9-13, 28-32, 133, 160. *)
Definition isspace (c : ascii) : bool :=
  let n := nat_of_ascii c in
  ((9 <=? n)%nat && (n <=? 13)%nat) || ((28 <=? n)%nat && (n <=? 32)%nat)
  || (n =? 133)%nat || (n =? 160)%nat.

Fixpoint lstrip_by (p : ascii -> bool) (s : string) : string :=
  match s with
  | String c s' => if p c then lstrip_by p s' else s
  | EmptyString => EmptyString
  end.

Fixpoint rstrip_by (p : ascii -> bool) (s : string) : string :=
  match s with
  | EmptyString => EmptyString
  | String c s' =>
      match rstrip_by p s' with
      | EmptyString => if p c then EmptyString else String c EmptyString
      | r => String c r
      end
  end.

Fixpoint mem_char (c : ascii) (chars : string) : bool :=
  match chars with
  | EmptyString => false
  | String d chars' => Ascii.eqb c d || mem_char c chars'
  end.

(** [s.strip()], [s.rstrip()] and [s.rstrip(chars)]. *)
Definition strip (s : string) : string := lstrip_by isspace (rstrip_by isspace s).
Definition rstrip (s : string) : string := rstrip_by isspace s.
Definition rstrip_chars (chars s : string) : string :=
  rstrip_by (fun c => mem_char c chars) s.

(** [sep.join(l)]. *)
Fixpoint join (sep : string) (l : list string) : string :=
  match l with
  | [] => ""
  | [x] => x
  | x :: l' => x +:+ sep +:+ join sep l'
  end.

(** Truthiness of a [str], of an [Optional[int]] and of a [list] or [None]. *)
Definition truthy_str (s : string) : bool := negb (String.eqb s "").

Definition truthy_int (o : option Z) : bool :=
  match o with
  | Some n => negb (n =? 0)
  | None => false
  end.

Definition truthy_list {A} (o : option (list A)) : bool :=
  match o with
  | Some (_ :: _) => true
  | _ => false
  end.

(** [a or d] for an optional integer [a] and an integer [d]. *)
Definition int_or (a : option Z) (d : Z) : Z :=
  match a with
  | Some n => if n =? 0 then d else n
  | None => d
  end.

(** [sum(...)] over integers. *)
Definition sum (l : list Z) : Z := fold_left Z.add l 0.

(** [int(s)] for a string of decimal digits. *)
Definition digit_value (c : ascii) : Z := Z.of_nat (nat_of_ascii c) - 48.
Definition int_of_digits (s : string) : Z :=
  fold_left (fun acc c => 10 * acc + digit_value c) (list_ascii_of_string s) 0.

(** Iterating over [StringIO(text)]: the lines of [text], each with the line
    feed that ends it. *)
Fixpoint iter_lines (s : string) : list string :=
  match s with
  | EmptyString => []
  | String c s' =>
      if Ascii.eqb c LF then String c "" :: iter_lines s'
      else match iter_lines s' with
           | [] => [String c ""]
           | l :: ls => String c l :: ls
           end
  end.

(** Calls that can raise. *)
Inductive exn : Type :=
| UnidiffParseError (msg : string)
| UnboundLocalError (name : string).

Inductive result (A : Type) : Type :=
| Returns (a : A)
| Raises (e : exn).
#[global] Arguments Returns {A} a.
#[global] Arguments Raises {A} e.

Definition bind {A B : Type} (r : result A) (k : A -> result B) : result B :=
  match r with
  | Returns a => k a
  | Raises e => Raises e
  end.

End Py.

Export Py(exn(..), result(..)).

(** ** Regular expressions

    The patterns of [unidiff/constants.py] that the parser of text diffs
    uses repeat character classes only, so the matcher is a backtracking one
    over that fragment of [re]: greedy repetition of a class, optional parts,
    named groups and the end-of-line anchor.  [match_] is [pattern.match(s)],
    anchored at the start of [s]. *)

Module re.

Inductive t : Type :=
| Eps
| Lit (s : string)
| Many (p : ascii -> bool) (lo : nat) (hi : option nat)
| Seq (r1 r2 : t)
| Opt (r : t)
| Group (name : string) (r : t)
| Eol.

Definition groups : Type := list (string * string).

Fixpoint group (g : groups) (name : string) : option string :=
  match g with
  | [] => None
  | (n, v) :: g' => if String.eqb n name then Some v else group g' name
  end.

Fixpoint drop (n : nat) (s : string) : string :=
  match n, s with
  | S n', String _ s' => drop n' s'
  | _, _ => s
  end.

Fixpoint take (n : nat) (s : string) : string :=
  match n, s with
  | S n', String c s' => String c (take n' s')
  | _, _ => EmptyString
  end.

(** The number of leading characters of [s] in the class [p], at most [hi]. *)
Fixpoint span (p : ascii -> bool) (hi : option nat) (s : string) : nat :=
  match hi, s with
  | Some O, _ => O
  | _, EmptyString => O
  | _, String c s' =>
      if p c then S (span p (option_map Nat.pred hi) s') else O
  end.

(** Greedy: try [n], [n-1], ..., [lo] repetitions. *)
Fixpoint greedily {R : Type} (k : nat -> option R) (lo n : nat) : option R :=
  if (n <? lo)%nat then None
  else match k n with
       | Some r => Some r
       | None => match n with
                 | O => None
                 | S n' => greedily k lo n'
                 end
       end.

Fixpoint run (r : t) (s : string) (g : groups)
    (k : string -> groups -> option groups) : option groups :=
  match r with
  | Eps => k s g
  | Lit l => if String.prefix l s then k (drop (String.length l) s) g else None
  | Many p lo hi => greedily (fun i => k (drop i s) g) lo (span p hi s)
  | Seq r1 r2 => run r1 s g (fun s' g' => run r2 s' g' k)
  | Opt r' =>
      match run r' s g k with
      | Some x => Some x
      | None => k s g
      end
  | Group name r' =>
      run r' s g (fun s' g' =>
        k s' ((name, take (String.length s - String.length s')%nat s) :: g'))
  | Eol => if String.eqb s "" || String.eqb s (String Py.LF "") then k s g else None
  end.

Definition match_ (r : t) (s : string) : option groups :=
  run r s [] (fun _ g => Some g).

Definition cat (rs : list t) : t := fold_right Seq Eps rs.

(** Character classes. *)
Definition ch (c : ascii) : ascii -> bool := Ascii.eqb c.
Definition dot (c : ascii) : bool := negb (Ascii.eqb c Py.LF).
Definition any (_ : ascii) : bool := true.
Definition not_tab_nl (c : ascii) : bool :=
  negb (Ascii.eqb c Py.TAB) && negb (Ascii.eqb c Py.LF).
Definition digit (c : ascii) : bool :=
  let n := nat_of_ascii c in (48 <=? n)%nat && (n <=? 57)%nat.
Definition one_of (chars : string) (c : ascii) : bool := Py.mem_char c chars.

Definition plus (p : ascii -> bool) : t := Many p 1 None.
Definition star (p : ascii -> bool) : t := Many p 0 None.
Definition maybe (p : ascii -> bool) : t := Many p 0 (Some 1%nat).
Definition one (p : ascii -> bool) : t := Many p 1 (Some 1%nat).

End re.

(** ** More of Python's strings, for the heuristics on function names *)

Module PyStr.

(** [s.endswith(suffix)]. *)
Definition endswith (s suffix : string) : bool :=
  (String.length suffix <=? String.length s)%nat
  && String.eqb (re.drop (String.length s - String.length suffix) s) suffix.

(** The class [\w] of a [str] pattern: the characters [isalnum] accepts and
    the underscore.  Below 256 these are the digits and letters of ASCII and
    the code points 170, 178, 179, 181, 185, 186, 188-190, 192-214, 216-246
    and 248-255. *)
Definition isword (c : ascii) : bool :=
  let n := nat_of_ascii c in
  ((48 <=? n) && (n <=? 57) || (65 <=? n) && (n <=? 90) || (n =? 95)
   || (97 <=? n) && (n <=? 122) || (n =? 170) || (n =? 178) || (n =? 179)
   || (n =? 181) || (n =? 185) || (n =? 186) || (188 <=? n) && (n <=? 190)
   || (192 <=? n) && (n <=? 214) || (216 <=? n) && (n <=? 246)
   || (248 <=? n) && (n <=? 255))%nat.

(** [a or b] for two optional integers. *)
Definition or_opt (a b : option Z) : option Z :=
  if Py.truthy_int a then a else b.

(** The first result that is not [None]. *)
Fixpoint first_some {A : Type} (l : list (option A)) : option A :=
  match l with
  | [] => None
  | Some a :: _ => Some a
  | None :: l' => first_some l'
  end.

End PyStr.

(** ** The object model of [unidiff]

    [diff_parser.py] imports [PatchSet] and [PatchedFile] from the [unidiff]
    package, which is not part of the repository.  A [PatchSet] is a list of
    [PatchedFile]s, a [PatchedFile] a list of [Hunk]s and a [Hunk] a list of
    [Line]s; the attributes and properties below follow the package
    ([unidiff/patch.py] and [unidiff/constants.py] of its 0.7 releases) and
    are the ones the parser reads.  The properties of [diff_parser.py] proved
    below hold for every patch set; the constructor of the package is used
    on sample texts only. *)

Module unidiff.

Definition DEV_NULL : string := "/dev/null".
Definition LINE_TYPE_ADDED : string := "+".
Definition LINE_TYPE_REMOVED : string := "-".
Definition LINE_TYPE_CONTEXT : string := " ".
Definition LINE_TYPE_EMPTY : string := "".
Definition LINE_TYPE_NO_NEWLINE : string := "\".
Definition LINE_VALUE_NO_NEWLINE : string := " No newline at end of file".

Module Line.
Record t : Type := mk {
  value : string;
  line_type : string;
  source_line_no : option Z;
  target_line_no : option Z
}.

Definition is_added (l : t) : bool := String.eqb (line_type l) LINE_TYPE_ADDED.
Definition is_removed (l : t) : bool := String.eqb (line_type l) LINE_TYPE_REMOVED.
Definition is_context (l : t) : bool := String.eqb (line_type l) LINE_TYPE_CONTEXT.
End Line.

Module Hunk.
Record t : Type := mk {
  source_start : Z;
  source_length : Z;
  target_start : Z;
  target_length : Z;
  section_header : string;
  lines : list Line.t
}.

(** [sum(1 for line in self if line.is_added)] *)
Definition added (h : t) : Z :=
  Py.sum (map (fun _ => 1) (List.filter Line.is_added (lines h))).
Definition removed (h : t) : Z :=
  Py.sum (map (fun _ => 1) (List.filter Line.is_removed (lines h))).
End Hunk.

Module PatchedFile.
Record t : Type := mk {
  source_file : string;
  target_file : string;
  hunks : list Hunk.t
}.

(** [s[2:]] *)
Definition drop2 (s : string) : string :=
  match s with
  | String _ (String _ r) => r
  | _ => ""
  end.

(** [s[1:-1]] *)
Fixpoint drop_last (s : string) : string :=
  match s with
  | EmptyString => ""
  | String _ EmptyString => ""
  | String c r => String c (drop_last r)
  end.
Definition strip_quotes (s : string) : string :=
  match s with
  | String _ r => drop_last r
  | EmptyString => ""
  end.

Fixpoint last_char (s : string) : option ascii :=
  match s with
  | EmptyString => None
  | String c EmptyString => Some c
  | String _ r => last_char r
  end.
Definition starts_with (p s : string) : bool := String.prefix p s.
Definition ends_with_quote (s : string) : bool :=
  match last_char s with
  | Some c => Ascii.eqb c Py.DQUOTE
  | None => false
  end.

Definition is_rename (f : t) : bool :=
  negb (String.eqb (source_file f) DEV_NULL)
  && negb (String.eqb (target_file f) DEV_NULL)
  && negb (String.eqb (drop2 (source_file f)) (drop2 (target_file f))).

Definition is_added_file (f : t) : bool :=
  if String.eqb (source_file f) DEV_NULL then true
  else match hunks f with
       | [h] => (Hunk.source_start h =? 0) && (Hunk.source_length h =? 0)
       | _ => false
       end.

Definition is_removed_file (f : t) : bool :=
  if String.eqb (target_file f) DEV_NULL then true
  else match hunks f with
       | [h] => (Hunk.target_start h =? 0) && (Hunk.target_length h =? 0)
       | _ => false
       end.

(** The file path without the [a/] or [b/] prefix; the target name is
    preferred for an added file and for a rename. *)
Definition path (f : t) : string :=
  let filepath :=
    if String.eqb (source_file f) DEV_NULL
       || (is_rename f && negb (String.eqb (target_file f) DEV_NULL))
    then target_file f else source_file f in
  let quoted := starts_with (String Py.DQUOTE "") filepath && ends_with_quote filepath in
  let filepath := if quoted then strip_quotes filepath else filepath in
  let filepath :=
    if starts_with "a/" filepath || starts_with "b/" filepath
    then drop2 filepath else filepath in
  if quoted then String Py.DQUOTE (filepath +:+ String Py.DQUOTE "") else filepath.

(** A [PatchedFile] is a [list] of hunks: [if not patched_file] holds for a
    file without hunks. *)
Definition truthy (f : t) : bool := Py.truthy_list (Some (hunks f)).

Definition added (f : t) : Z := Py.sum (map Hunk.added (hunks f)).
Definition removed (f : t) : Z := Py.sum (map Hunk.removed (hunks f)).
End PatchedFile.

(** *** The patterns of [unidiff/constants.py] *)

Definition RE_SOURCE_FILENAME : re.t :=
  re.cat [re.Lit "--- ";
          re.Group "filename"
            (re.cat [re.maybe (re.ch Py.DQUOTE); re.plus re.not_tab_nl;
                     re.maybe (re.ch Py.DQUOTE)]);
          re.Opt (re.cat [re.Lit (String Py.TAB ""); re.Group "timestamp" (re.plus re.dot)])].

Definition RE_TARGET_FILENAME : re.t :=
  re.cat [re.Lit "+++ ";
          re.Group "filename"
            (re.cat [re.maybe (re.ch Py.DQUOTE); re.plus re.not_tab_nl;
                     re.maybe (re.ch Py.DQUOTE)]);
          re.Opt (re.cat [re.Lit (String Py.TAB ""); re.Group "timestamp" (re.plus re.dot)])].

Definition RE_DIFF_GIT_HEADER : re.t :=
  re.cat [re.Lit "diff --git ";
          re.Group "source" (re.cat [re.Lit "a/"; re.plus re.not_tab_nl]);
          re.Lit " ";
          re.Group "target" (re.cat [re.Lit "b/"; re.plus re.not_tab_nl])].

Definition RE_DIFF_GIT_HEADER_URI_LIKE : re.t :=
  re.cat [re.Lit "diff --git ";
          re.Group "source" (re.cat [re.star re.dot; re.Lit "://"; re.plus re.not_tab_nl]);
          re.Lit " ";
          re.Group "target" (re.cat [re.star re.dot; re.Lit "://"; re.plus re.not_tab_nl])].

Definition RE_DIFF_GIT_HEADER_NO_PREFIX : re.t :=
  re.cat [re.Lit "diff --git ";
          re.Group "source" (re.plus re.not_tab_nl);
          re.Lit " ";
          re.Group "target" (re.plus re.not_tab_nl)].

Definition RE_DIFF_GIT_DELETED_FILE : re.t :=
  re.cat [re.Lit "deleted file mode "; re.plus re.digit; re.Eol].

Definition RE_DIFF_GIT_NEW_FILE : re.t :=
  re.cat [re.Lit "new file mode "; re.plus re.digit; re.Eol].

Definition RE_HUNK_HEADER : re.t :=
  re.cat [re.Lit "@@ -"; re.Group "1" (re.plus re.digit);
          re.Opt (re.cat [re.Lit ","; re.Group "2" (re.plus re.digit)]);
          re.Lit " +"; re.Group "3" (re.plus re.digit);
          re.Opt (re.cat [re.Lit ","; re.Group "4" (re.plus re.digit)]);
          re.Lit " @@"; re.maybe (re.ch " "); re.Group "5" (re.star re.dot)].

Definition RE_HUNK_BODY_LINE : re.t :=
  re.cat [re.Group "line_type" (re.one (re.one_of "- +\"));
          re.Group "value" (re.star re.any)].

Definition RE_HUNK_EMPTY_BODY_LINE : re.t :=
  re.cat [re.Group "line_type" (re.maybe (re.one_of "- +\"));
          re.Group "value"
            (re.Many (re.one_of (String Py.CR (String Py.LF ""))) 1 (Some 2%nat))].

Definition RE_NO_NEWLINE_MARKER : re.t := re.Lit "\ No newline at end of file".

(** *** [PatchSet]: the list of files and its constructor

    [PatchSet(text)] reads [text] line by line.  [_parse] keeps the file being
    read in [current_file], which is [None] or the file last appended to the
    set, so that assigning to its attributes changes the set's last element;
    [PatchedFile._parse_hunk] takes the hunk's lines from the same iterator,
    which the model renders as the [in_hunk] component of the loop state.
    The notice of a binary file ([RE_BINARY_DIFF], a line that begins with
    [Binary file]), for which the package lists a file without hunks, is not
    modelled: the constructor below is that of text diffs, and what is
    stated of it for every text assumes a text without such a notice. *)

Module PatchSet.

Definition t : Type := list PatchedFile.t.

(** The local variables of [PatchedFile._parse_hunk]. *)
Record open_hunk : Type := mk_open_hunk {
  hunk : Hunk.t;
  source_line_no : Z;
  target_line_no : Z;
  expected_source_end : Z;
  expected_target_end : Z
}.

(** The local variables of [PatchSet._parse]; [source_file] and
    [target_file] are unbound until a header assigns them. *)
Record state : Type := mk_state {
  self : t;
  current_file : bool;
  patch_info : option (list string);
  source_file : option string;
  target_file : option string;
  in_hunk : option open_hunk
}.

Definition init : state := mk_state [] false None None None None.

Fixpoint update_last (f : PatchedFile.t -> PatchedFile.t) (l : t) : t :=
  match l with
  | [] => []
  | [x] => [f x]
  | x :: l' => x :: update_last f l'
  end.

Definition last_file (l : t) : option PatchedFile.t := List.last (map Some l) None.

Definition set_source_file (v : string) (f : PatchedFile.t) : PatchedFile.t :=
  PatchedFile.mk v (PatchedFile.target_file f) (PatchedFile.hunks f).
Definition set_target_file (v : string) (f : PatchedFile.t) : PatchedFile.t :=
  PatchedFile.mk (PatchedFile.source_file f) v (PatchedFile.hunks f).
Definition append_hunk (h : Hunk.t) (f : PatchedFile.t) : PatchedFile.t :=
  PatchedFile.mk (PatchedFile.source_file f) (PatchedFile.target_file f)
                 (PatchedFile.hunks f ++ [h]).

Definition hunk_append (l : Line.t) (h : Hunk.t) : Hunk.t :=
  Hunk.mk (Hunk.source_start h) (Hunk.source_length h) (Hunk.target_start h)
          (Hunk.target_length h) (Hunk.section_header h) (Hunk.lines h ++ [l]).

(** [last_hunk.append(line)] on the last hunk of the file, which raises
    [msg] when the file has none. *)
Definition append_to_last_hunk (msg : string) (l : Line.t) (f : PatchedFile.t)
    : result PatchedFile.t :=
  match List.rev (PatchedFile.hunks f) with
  | [] => Raises (UnidiffParseError msg)
  | last_hunk :: before =>
      Returns (PatchedFile.mk (PatchedFile.source_file f) (PatchedFile.target_file f)
                              (List.rev before ++ [hunk_append l last_hunk]))
  end.

Definition group_or (g : re.groups) (name : string) (default : string) : string :=
  match re.group g name with
  | Some v => v
  | None => default
  end.

(** The [Hunk] built from the groups of the header: an absent length is 1. *)
Definition new_hunk (g : re.groups) : open_hunk :=
  let int_or1 (name : string) :=
    match re.group g name with
    | Some v => Py.int_of_digits v
    | None => 1
    end in
  let h := Hunk.mk (Py.int_of_digits (group_or g "1" "")) (int_or1 "2")
                   (Py.int_of_digits (group_or g "3" "")) (int_or1 "4")
                   (group_or g "5" "") [] in
  mk_open_hunk h (Hunk.source_start h) (Hunk.target_start h)
               (Hunk.source_start h + Hunk.source_length h)
               (Hunk.target_start h + Hunk.target_length h).

(** The end of [_parse_hunk], after the loop over the hunk's lines. *)
Definition close_hunk (st : state) (oh : open_hunk) : result state :=
  if (source_line_no oh <? expected_source_end oh)
     || (target_line_no oh <? expected_target_end oh)
  then Raises (UnidiffParseError "Hunk is shorter than expected")
  else Returns (mk_state (update_last (append_hunk (hunk oh)) (self st)) (current_file st)
                         (patch_info st) (source_file st) (target_file st) None).

(** One turn of the loop of [_parse_hunk]. *)
Definition hunk_line (st : state) (oh : open_hunk) (line : string) : result state :=
  let valid_line :=
    match re.match_ RE_HUNK_BODY_LINE line with
    | Some g => Some g
    | None => re.match_ RE_HUNK_EMPTY_BODY_LINE line
    end in
  match valid_line with
  | None => Raises (UnidiffParseError ("Hunk diff line expected: " +:+ line))
  | Some g =>
      let line_type := group_or g "line_type" "" in
      let line_type :=
        if String.eqb line_type LINE_TYPE_EMPTY then LINE_TYPE_CONTEXT else line_type in
      let value := group_or g "value" "" in
      let '(original_line, source_line_no', target_line_no') :=
        if String.eqb line_type LINE_TYPE_ADDED then
          (Some (Line.mk value line_type None (Some (target_line_no oh))),
           source_line_no oh, target_line_no oh + 1)
        else if String.eqb line_type LINE_TYPE_REMOVED then
          (Some (Line.mk value line_type (Some (source_line_no oh)) None),
           source_line_no oh + 1, target_line_no oh)
        else if String.eqb line_type LINE_TYPE_CONTEXT then
          (Some (Line.mk value line_type (Some (source_line_no oh))
                         (Some (target_line_no oh))),
           source_line_no oh + 1, target_line_no oh + 1)
        else if String.eqb line_type LINE_TYPE_NO_NEWLINE then
          (Some (Line.mk value line_type None None), source_line_no oh, target_line_no oh)
        else (None, source_line_no oh, target_line_no oh) in
      if (expected_source_end oh <? source_line_no')
         || (expected_target_end oh <? target_line_no')
      then Raises (UnidiffParseError "Hunk is longer than expected")
      else
        let hunk' :=
          match original_line with
          | Some l => hunk_append l (hunk oh)
          | None => hunk oh
          end in
        let oh' := mk_open_hunk hunk' source_line_no' target_line_no'
                                (expected_source_end oh) (expected_target_end oh) in
        if (source_line_no' =? expected_source_end oh)
           && (target_line_no' =? expected_target_end oh)
        then close_hunk st oh'
        else Returns (mk_state (self st) (current_file st) (patch_info st)
                               (source_file st) (target_file st) (Some oh'))
  end.

Definition is_diff_git_header (line : string) : option re.groups :=
  match re.match_ RE_DIFF_GIT_HEADER line with
  | Some g => Some g
  | None =>
      match re.match_ RE_DIFF_GIT_HEADER_URI_LIKE line with
      | Some g => Some g
      | None => re.match_ RE_DIFF_GIT_HEADER_NO_PREFIX line
      end
  end.

Definition matches (r : re.t) (line : string) : bool :=
  match re.match_ r line with
  | Some _ => true
  | None => false
  end.

Definition patch_info_append (line : string) (pi : option (list string))
    : option (list string) :=
  option_map (fun l => l ++ [line]) pi.

(** The file [current_file] refers to. *)
Definition current (st : state) : option PatchedFile.t :=
  if current_file st then last_file (self st) else None.

(** One turn of the loop of [_parse], outside a hunk. *)
Definition top_line (st : state) (line : string) : result state :=
  match is_diff_git_header line with
  | Some g =>
      let source := group_or g "source" "" in
      let target := group_or g "target" "" in
      Returns (mk_state (self st ++ [PatchedFile.mk source target []]) true
                        (Some [line]) (Some source) (Some target) None)
  | None =>
  if matches RE_DIFF_GIT_NEW_FILE line then
    match current st, patch_info st with
    | Some _, Some _ =>
        Returns (mk_state (update_last (set_source_file DEV_NULL) (self st)) true
                          (patch_info_append line (patch_info st))
                          (source_file st) (target_file st) None)
    | _, _ => Raises (UnidiffParseError ("Unexpected new file found: " +:+ line))
    end
  else if matches RE_DIFF_GIT_DELETED_FILE line then
    match current st, patch_info st with
    | Some _, Some _ =>
        Returns (mk_state (update_last (set_target_file DEV_NULL) (self st)) true
                          (patch_info_append line (patch_info st))
                          (source_file st) (target_file st) None)
    | _, _ => Raises (UnidiffParseError ("Unexpected deleted file found: " +:+ line))
    end
  else
  match re.match_ RE_SOURCE_FILENAME line with
  | Some g =>
      let source := group_or g "filename" "" in
      let keep :=
        match current st with
        | Some f =>
            if negb (String.eqb (PatchedFile.source_file f) source) then false
            else match patch_info st with
                 | None => false
                 | Some _ => true
                 end
        | None => false
        end in
      Returns (mk_state (self st) keep (patch_info st) (Some source) (target_file st) None)
  | None =>
  match re.match_ RE_TARGET_FILENAME line with
  | Some g =>
      let target := group_or g "filename" "" in
      match current st with
      | Some f =>
          if negb (String.eqb (PatchedFile.target_file f) target)
          then Raises (UnidiffParseError ("Target without source: " +:+ line))
          else Returns (mk_state (self st) true (patch_info st) (source_file st)
                                 (Some target) None)
      | None =>
          match source_file st with
          | None => Raises (UnboundLocalError "source_file")
          | Some source =>
              Returns (mk_state (self st ++ [PatchedFile.mk source target []]) true None
                                (source_file st) (Some target) None)
          end
      end
  | None =>
  match re.match_ RE_HUNK_HEADER line with
  | Some g =>
      match current st with
      | None => Raises (UnidiffParseError ("Unexpected hunk found: " +:+ line))
      | Some _ =>
          Returns (mk_state (self st) true None (source_file st) (target_file st)
                            (Some (new_hunk g)))
      end
  | None =>
  if matches RE_NO_NEWLINE_MARKER line then
    match current st with
    | None => Raises (UnidiffParseError ("Unexpected marker: " +:+ line))
    | Some f =>
        Py.bind (append_to_last_hunk ("Unexpected marker:" +:+ LINE_VALUE_NO_NEWLINE)
                   (Line.mk (LINE_VALUE_NO_NEWLINE +:+ String Py.LF "")
                            LINE_TYPE_NO_NEWLINE None None) f)
          (fun f' => Returns (mk_state (update_last (fun _ => f') (self st)) true
                                       (patch_info st) (source_file st) (target_file st)
                                       None))
    end
  else
  match (if String.eqb line (String Py.LF "") then current st else None) with
  | Some f =>
      Py.bind (append_to_last_hunk "Unexpected trailing newline character"
                 (Line.mk (String Py.LF "") LINE_TYPE_EMPTY None None) f)
        (fun f' => Returns (mk_state (update_last (fun _ => f') (self st)) true
                                     (patch_info st) (source_file st) (target_file st)
                                     None))
  | None =>
      match patch_info st with
      | None =>
          Returns (mk_state (self st) false (Some [line]) (source_file st)
                            (target_file st) None)
      | Some pi =>
          Returns (mk_state (self st) (current_file st) (Some (pi ++ [line]))
                            (source_file st) (target_file st) None)
      end
  end end end end end.

Definition parse_line (st : state) (line : string) : result state :=
  match in_hunk st with
  | Some oh => hunk_line st oh line
  | None => top_line st line
  end.

Fixpoint parse_lines (st : state) (diff : list string) : result state :=
  match diff with
  | [] =>
      match in_hunk st with
      | Some oh => close_hunk st oh
      | None => Returns st
      end
  | line :: diff' => Py.bind (parse_line st line) (fun st' => parse_lines st' diff')
  end.

Definition _parse (diff : list string) : result t :=
  Py.bind (parse_lines init diff) (fun st => Returns (self st)).

(** [PatchSet(f)] for a string [f]. *)
Definition new (f : string) : result t := _parse (Py.iter_lines f).

End PatchSet.

End unidiff.

(** ** [diff_parser.py] *)

Import unidiff.

Module LineChange.
Record t : Type := mk {
  file_path : string;
  line_number : Z;
  position : Z;
  line_content : string;
  change_type : string;
  target_line_no : option Z;
  source_line_no : option Z
}.
End LineChange.

Module FileAnalysis.
Record t : Type := mk {
  file_path : string;
  additions : Z;
  deletions : Z;
  is_new_file : bool;
  is_deleted_file : bool;
  is_renamed : bool;
  old_path : option string;
  line_changes : list LineChange.t
}.
End FileAnalysis.

(** The dictionaries [extract_function_changes] returns, with their four
    keys. *)
Module FunctionChange.
Record t : Type := mk {
  function_name : string;
  change_type : string;
  line_number : option Z;
  content : string
}.
End FunctionChange.

(** [for hunk in patched_file: for line in hunk: body], the loop state threaded
    through [body]. *)
Definition for_each_line {S : Type} (patched_file : PatchedFile.t)
    (body : S -> Line.t -> S) (init : S) : S :=
  fold_left (fun st hunk => fold_left body (Hunk.lines hunk) st)
            (PatchedFile.hunks patched_file) init.

Module DiffParser.

Record t : Type := mk {
  diff_text : string;
  patch_set : option PatchSet.t
}.

(** The [PatchSet] constructor belongs to the [unidiff] package; [__init__]
    takes it as [PatchSet_] and lets whatever it raises through. *)
Definition __init__ (PatchSet_ : string -> result PatchSet.t) (diff_text : string)
    : result t :=
  if Py.truthy_str (Py.strip diff_text) then
    match PatchSet_ diff_text with
    | Returns ps => Returns (mk diff_text (Some ps))
    | Raises e => Raises e
    end
  else Returns (mk diff_text None).

(** The files iterated by [for patched_file in self.patch_set], reached only
    after the [if not self.patch_set] guard. *)
Definition files (self : t) : list PatchedFile.t :=
  match patch_set self with
  | Some ps => ps
  | None => []
  end.

Definition get_files (self : t) : list string :=
  if negb (Py.truthy_list (patch_set self)) then []
  else map PatchedFile.path (files self).

Definition _find_file (self : t) (file_path : string) : option PatchedFile.t :=
  if negb (Py.truthy_list (patch_set self)) then None
  else List.find (fun patched_file => String.eqb (PatchedFile.path patched_file) file_path)
                 (files self).

(** The body of the loop of [_analyze_file]: the [LineChange] of a line at
    a position, and the step that counts the line and appends its record. *)
Definition _line_change (path : string) (position : Z) (line : Line.t) : LineChange.t :=
  let change_type :=
    if Line.is_added line then "added"
    else if Line.is_removed line then "removed"
    else "context" in
  {| LineChange.file_path := path;
     LineChange.line_number :=
       Py.int_or (Line.target_line_no line) (Py.int_or (Line.source_line_no line) 0);
     LineChange.position := position;
     LineChange.line_content := Py.rstrip_chars (String Py.LF "") (Line.value line);
     LineChange.change_type := change_type;
     LineChange.target_line_no := Line.target_line_no line;
     LineChange.source_line_no := Line.source_line_no line |}.

Definition _analyze_line (path : string) (st : Z * list LineChange.t) (line : Line.t)
    : Z * list LineChange.t :=
  let '(position, line_changes) := st in
  let position := position + 1 in
  (position, line_changes ++ [_line_change path position line]).

Definition _analyze_file (patched_file : PatchedFile.t) : FileAnalysis.t :=
  let '(_, line_changes) :=
    for_each_line patched_file (_analyze_line (PatchedFile.path patched_file)) (0, []) in
  {| FileAnalysis.file_path := PatchedFile.path patched_file;
     FileAnalysis.additions := PatchedFile.added patched_file;
     FileAnalysis.deletions := PatchedFile.removed patched_file;
     FileAnalysis.is_new_file := PatchedFile.is_added_file patched_file;
     FileAnalysis.is_deleted_file := PatchedFile.is_removed_file patched_file;
     FileAnalysis.is_renamed := PatchedFile.is_rename patched_file;
     FileAnalysis.old_path :=
       if PatchedFile.is_rename patched_file
       then Some (PatchedFile.source_file patched_file) else None;
     FileAnalysis.line_changes := line_changes |}.

Definition get_file_analysis (self : t) (file_path : string) : option FileAnalysis.t :=
  if negb (Py.truthy_list (patch_set self)) then None
  else match _find_file self file_path with
       | None => None
       | Some patched_file =>
           if negb (PatchedFile.truthy patched_file) then None
           else Some (_analyze_file patched_file)
       end.

Definition get_all_file_analyses (self : t) : list FileAnalysis.t :=
  if negb (Py.truthy_list (patch_set self)) then []
  else fold_left (fun analyses patched_file => analyses ++ [_analyze_file patched_file])
                 (files self) [].

Definition added_line : Type := Z * option Z * string.

Definition _added_step (st : Z * list added_line) (line : Line.t) : Z * list added_line :=
  let '(position, added_lines) := st in
  let position := position + 1 in
  if Line.is_added line
  then (position,
        added_lines ++ [(position, Line.target_line_no line,
                         Py.rstrip_chars (String Py.LF "") (Line.value line))])
  else (position, added_lines).

Definition get_added_lines_with_positions (self : t) : gmap string (list added_line) :=
  if negb (Py.truthy_list (patch_set self)) then ∅
  else fold_left
         (fun result patched_file =>
            let file_path := PatchedFile.path patched_file in
            let '(_, added_lines) := for_each_line patched_file _added_step (0, []) in
            match added_lines with
            | [] => result
            | _ :: _ => <[file_path := added_lines]> result
            end)
         (files self) ∅.

Definition _context_step (line_number context_lines : Z) (target_lines : list string)
    (line : Line.t) : list string :=
  match Line.target_line_no line with
  | Some target =>
      if Py.truthy_int (Some target) && (Z.abs (target - line_number) <=? context_lines)
      then
        let prefix :=
          if Line.is_added line then "+" else if Line.is_removed line then "-" else " " in
        target_lines ++ [prefix +:+ " " +:+ Py.rstrip (Line.value line)]
      else target_lines
  | None => target_lines
  end.

Definition get_modified_lines_context (self : t) (file_path : string)
    (line_number context_lines : Z) : option string :=
  match _find_file self file_path with
  | None => None
  | Some patched_file =>
      if negb (PatchedFile.truthy patched_file) then None
      else
        match for_each_line patched_file (_context_step line_number context_lines) [] with
        | [] => None
        | target_lines => Some (Py.join (String Py.LF "") target_lines)
        end
  end.

Definition get_statistics (self : t) : gmap string Z :=
  if negb (Py.truthy_list (patch_set self))
  then <["files" := 0]> (<["additions" := 0]> (<["deletions" := 0]> ∅))
  else
    let files_ := Z.of_nat (length (files self)) in
    let additions := Py.sum (map PatchedFile.added (files self)) in
    let deletions := Py.sum (map PatchedFile.removed (files self)) in
    <["files" := files_]> (<["additions" := additions]> (<["deletions" := deletions]> ∅)).

(** [stats[key]]: [None] stands for the [KeyError] of a missing key. *)
Definition is_large_diff (self : t) (threshold : Z) : option bool :=
  let stats := get_statistics self in
  match stats !! "additions", stats !! "deletions" with
  | Some additions, Some deletions => Some (threshold <? additions + deletions)
  | _, _ => None
  end.

(** A pattern of [function_patterns].  Each has the shape
    [^lead(?:w1|w2|...)?rest]; the matcher of [re] has no alternation, so the
    optional words are tried, in their order and before the empty choice, at
    every place the lead can end, the way a backtracking matcher does. *)
Record pattern : Type := mk_pattern {
  lead : re.t;
  optional_words : list string;
  rest : re.t
}.

Definition match_pattern (p : pattern) (s : string) : option re.groups :=
  re.run (lead p) s []
    (fun s' g =>
       PyStr.first_some
         (map (fun w => re.run (re.Seq (re.Lit w) (rest p)) s' g (fun _ g' => Some g'))
              (optional_words p)
          ++ [re.run (rest p) s' g (fun _ g' => Some g')])).

Definition keyword_pattern (keyword : string) : pattern :=
  mk_pattern (re.star Py.isspace) []
             (re.cat [re.Lit keyword; re.plus Py.isspace;
                      re.Group "1" (re.plus PyStr.isword)]).

Definition function_patterns : list (string * list pattern) :=
  [(".py", [keyword_pattern "def"; keyword_pattern "class"]);
   (".js", [keyword_pattern "function";
            mk_pattern (re.star Py.isspace) []
                       (re.cat [re.Lit "const"; re.plus Py.isspace;
                                re.Group "1" (re.plus PyStr.isword);
                                re.star Py.isspace; re.Lit "="])]);
   (".java", [mk_pattern (re.star Py.isspace) ["public"; "private"; "protected"]
                         (re.cat [re.star Py.isspace; re.plus PyStr.isword;
                                  re.plus Py.isspace;
                                  re.Group "1" (re.plus PyStr.isword);
                                  re.star Py.isspace; re.Lit "("])]);
   (".go", [keyword_pattern "func"])].

(** The first extension of the table that ends the path. *)
Definition _file_ext (file_path : string) : option string :=
  option_map fst
    (List.find (fun entry => PyStr.endswith file_path (fst entry)) function_patterns).

(** [function_patterns[file_ext]] *)
Definition _patterns (file_ext : string) : list pattern :=
  match List.find (fun entry => String.eqb (fst entry) file_ext) function_patterns with
  | Some entry => snd entry
  | None => []
  end.

Definition _function_change (line : Line.t) (g : re.groups) : FunctionChange.t :=
  {| FunctionChange.function_name := PatchSet.group_or g "1" "";
     FunctionChange.change_type := if Line.is_added line then "added" else "removed";
     FunctionChange.line_number :=
       PyStr.or_opt (Line.target_line_no line) (Line.source_line_no line);
     FunctionChange.content := Py.strip (Line.value line) |}.

Definition _function_step (patterns : list pattern) (function_changes : list FunctionChange.t)
    (line : Line.t) : list FunctionChange.t :=
  if Line.is_added line || Line.is_removed line then
    fold_left
      (fun changes p =>
         match match_pattern p (Line.value line) with
         | Some g => changes ++ [_function_change line g]
         | None => changes
         end)
      patterns function_changes
  else function_changes.

Definition extract_function_changes (self : t) (file_path : string)
    : list FunctionChange.t :=
  match _find_file self file_path with
  | None => []
  | Some patched_file =>
      if negb (PatchedFile.truthy patched_file) then []
      else
        match _file_ext file_path with
        | None => []
        | Some file_ext =>
            if negb (Py.truthy_str file_ext) then []
            else for_each_line patched_file (_function_step (_patterns file_ext)) []
        end
  end.

End DiffParser.

(** ** The caller of the parser

    [cli.py] hands the added lines of each file to the static analyzer,
    which runs linters in subprocesses; the analyzer and [pathlib]'s suffix
    of a path are parameters here. *)

Module PRReviewCLI.
Section StaticAnalysis.

Context {Issue : Type}.
Variable analyze_diff_content : string -> string -> string -> list Issue.
Variable suffix : string -> string.

(** The text joined from the contents of the added line changes. *)
Definition _added_content (file_analysis : FileAnalysis.t) : string :=
  Py.join (String Py.LF "")
    (map LineChange.line_content
         (List.filter (fun change => String.eqb (LineChange.change_type change) "added")
                      (FileAnalysis.line_changes file_analysis))).

(** The body of the loop over [diff_parser.get_files()] in [_review_pr]. *)
Definition _static_step (diff_parser : DiffParser.t) (static_issues : list Issue)
    (file_path : string) : list Issue :=
  match DiffParser.get_file_analysis diff_parser file_path with
  | Some file_analysis =>
      let added_content := _added_content file_analysis in
      if Py.truthy_str added_content
      then static_issues ++ analyze_diff_content added_content file_path (suffix file_path)
      else static_issues
  | None => static_issues
  end.

Definition _static_analysis (diff_parser : DiffParser.t) : list Issue :=
  fold_left (_static_step diff_parser) (DiffParser.get_files diff_parser) [].

End StaticAnalysis.
End PRReviewCLI.

Import DiffParser.

(** ** Notions used in the statements *)

(** The lines of a file in the order the nested loops visit them. *)
Definition all_lines (patched_file : PatchedFile.t) : list Line.t :=
  List.concat (map Hunk.lines (PatchedFile.hunks patched_file)).

(** The records [_analyze_file] builds for the lines [ls] when the counter
    stands at [position]. *)
Fixpoint number (path : string) (position : Z) (ls : list Line.t) : list LineChange.t :=
  match ls with
  | [] => []
  | l :: ls' => _line_change path (position + 1) l :: number path (position + 1) ls'
  end.

(** Every analysis the two queries return is [_analyze_file] of a file of the
    patch set. *)
Definition analysis_of (self : DiffParser.t) (fa : FileAnalysis.t) : Prop :=
  In fa (get_all_file_analyses self)
  \/ exists file_path, get_file_analysis self file_path = Some fa.

(** The change kind of a record, tested as the callers do with [==]. *)
Definition has_change_type (kind : string) (lc : LineChange.t) : bool :=
  String.eqb (LineChange.change_type lc) kind.

(** A text of white space only, the empty one included. *)
Definition whitespace_only (s : string) : bool :=
  forallb Py.isspace (list_ascii_of_string s).

(** The tuple [get_added_lines_with_positions] reports for a line change. *)
Definition added_tuple (lc : LineChange.t) : added_line :=
  (LineChange.position lc, LineChange.target_line_no lc, LineChange.line_content lc).

(** The tuples of the line changes of kind added, in the order of the
    analysis. *)
Definition added_tuples (fa : FileAnalysis.t) : list added_line :=
  map added_tuple (List.filter (has_change_type "added") (FileAnalysis.line_changes fa)).

(** The list the inner loops of [get_added_lines_with_positions] build for one
    file. *)
Definition added_lines_of (patched_file : PatchedFile.t) : list added_line :=
  snd (for_each_line patched_file _added_step (0, [])).

(** The entry the outer loop leaves under [file_path]: each file with added
    lines overwrites the entry of an earlier file of the same path. *)
Fixpoint last_entry (file_path : string) (fs : list PatchedFile.t) : option (list added_line) :=
  match fs with
  | [] => None
  | f :: fs' =>
      match last_entry file_path fs' with
      | Some v => Some v
      | None =>
          if String.eqb (PatchedFile.path f) file_path
          then match added_lines_of f with
               | [] => None
               | v => Some v
               end
          else None
      end
  end.

(** The body of the outer loop of [get_added_lines_with_positions]. *)
Definition _added_file_step (result : gmap string (list added_line))
    (patched_file : PatchedFile.t) : gmap string (list added_line) :=
  match added_lines_of patched_file with
  | [] => result
  | v => <[PatchedFile.path patched_file := v]> result
  end.

(** The first two components of a reported tuple. *)
Definition position_and_target (t : added_line) : Z * option Z := fst t.

(** How often [file_path] stands in a list of paths. *)
Definition occurrences (file_path : string) (paths : list string) : nat :=
  length (List.filter (String.eqb file_path) paths).

(** [l'] extends [l]: the files of [l] but the last are kept as they are and
    where they are, the last one may have changed, and files may follow. *)
Definition extends (l l' : PatchSet.t) : Prop :=
  exists g new, l' = PatchSet.update_last g l ++ new.


(** A line change is near [line_number] when it has a target line number that
    is truthy, that is not zero, and at most [context_lines] away. *)
Definition near (line_number context_lines : Z) (lc : LineChange.t) : bool :=
  match LineChange.target_line_no lc with
  | Some target =>
      negb (target =? 0) && (Z.abs (target - line_number) <=? context_lines)
  | None => false
  end.

(** The marker of a line change by its kind. *)
Definition marker (lc : LineChange.t) : string :=
  if has_change_type "added" lc then "+"
  else if has_change_type "removed" lc then "-"
  else " ".

(** A line of the context: marker, a space, the content without its trailing
    white space. *)
Definition render (lc : LineChange.t) : string :=
  marker lc +:+ " " +:+ Py.rstrip (LineChange.line_content lc).

(** The context [get_modified_lines_context] builds from an analysis. *)
Definition context_of (line_number context_lines : Z) (fa : FileAnalysis.t) : option string :=
  match List.filter (near line_number context_lines) (FileAnalysis.line_changes fa) with
  | [] => None
  | selected => Some (Py.join (String Py.LF "") (map render selected))
  end.

(** How the groups [g'] come from the groups [g] when a pattern has matched:
    every group of the pattern that took part puts its text in front; the
    text of a group that repeats a class has the length and the characters
    the repetition asks for. *)
Definition captured (r : re.t) (w : string) : Prop :=
  match r with
  | re.Many p lo _ =>
      (lo <= String.length w)%nat /\ forallb p (list_ascii_of_string w) = true
  | _ => True
  end.

Fixpoint binds (r : re.t) (g g' : re.groups) : Prop :=
  match r with
  | re.Seq r1 r2 => exists g1, binds r1 g g1 /\ binds r2 g1 g'
  | re.Opt r1 => binds r1 g g' \/ g' = g
  | re.Group name r1 => exists g1 w, binds r1 g g1 /\ g' = (name, w) :: g1 /\ captured r1 w
  | _ => g' = g
  end.

(** All the patterns of the table. *)
Definition all_patterns : list pattern := List.concat (map snd function_patterns).

(** A line that [extract_function_changes] looks at. *)
Definition is_changed (line : Line.t) : bool := Line.is_added line || Line.is_removed line.

(** The analyzer that returns its own arguments, to tell what the loop of
    [_review_pr] hands over. *)
Definition recorded_call (content file_path file_type : string)
    : list (string * string * string) :=
  [(content, file_path, file_type)].

(** The line changes of all the analyses. *)
Definition all_line_changes (self : DiffParser.t) : list LineChange.t :=
  List.concat (map FileAnalysis.line_changes (get_all_file_analyses self)).

(** An analysis of [file_path] that has additions. *)
Definition adds_under (file_path : string) (fa : FileAnalysis.t) : bool :=
  String.eqb (FileAnalysis.file_path fa) file_path
  && negb (FileAnalysis.additions fa =? 0).





(** ** Sample diffs *)

Module Samples.

Definition text (ls : list string) : string :=
  fold_right (fun l acc => l +:+ String Py.LF acc) "" ls.

Definition quoted (s : string) : string := String Py.DQUOTE (s +:+ String Py.DQUOTE "").

(** The diff of [tests/test_basic.py] and of the module's own example. *)
Definition example_diff : string :=
  text ["diff --git a/example.py b/example.py";
        "index 1234567..abcdefg 100644";
        "--- a/example.py";
        "+++ b/example.py";
        "@@ -1,4 +1,6 @@";
        " def hello_world():";
        "-    print(" +:+ quoted "Hello" +:+ ")";
        "+    print(" +:+ quoted "Hello, World!" +:+ ")";
        "+    return " +:+ quoted "greeting";
        "+";
        " def main():";
        "     hello_world()"].

Definition parser_of (diff_text : string) : DiffParser.t :=
  match DiffParser.__init__ PatchSet.new diff_text with
  | Returns p => p
  | Raises _ => DiffParser.mk diff_text None
  end.

Definition example_parser : DiffParser.t := parser_of example_diff.

Definition first_analysis (self : DiffParser.t) : FileAnalysis.t :=
  List.hd (FileAnalysis.mk "" 0 0 false false false None [])
          (get_all_file_analyses self).

End Samples.


(** Two sections for one path, as in a series of patches: the first removes a
    line and adds one, the second adds a line in front. *)
Definition two_sections_diff : string :=
  Samples.text ["diff --git a/x.py b/x.py";
                "--- a/x.py";
                "+++ b/x.py";
                "@@ -1 +1 @@";
                "-a";
                "+b";
                "diff --git a/x.py b/x.py";
                "--- a/x.py";
                "+++ b/x.py";
                "@@ -1 +1,2 @@";
                "+c";
                " b"].

(** Two sections for one path again: the first only removes a line, the
    second adds one. *)
Definition removal_then_addition_diff : string :=
  Samples.text ["diff --git a/x.py b/x.py";
                "--- a/x.py";
                "+++ b/x.py";
                "@@ -1,2 +1 @@";
                "-a";
                " b";
                "diff --git a/x.py b/x.py";
                "--- a/x.py";
                "+++ b/x.py";
                "@@ -1 +1,2 @@";
                "+c";
                " b"].

(** Two files, one hunk each. *)
Definition two_files_diff : string :=
  Samples.text ["diff --git a/a.py b/a.py";
                "--- a/a.py";
                "+++ b/a.py";
                "@@ -1 +1 @@";
                "-x";
                "+y";
                "diff --git a/b.py b/b.py";
                "--- a/b.py";
                "+++ b/b.py";
                "@@ -1,2 +1,3 @@";
                " line";
                "+new";
                " more"].

(** A hunk whose header places its added line at line zero of the new file. *)
Definition zero_target_diff : string :=
  Samples.text ["--- a/x"; "+++ b/x"; "@@ -0,0 +0,1 @@"; "+foo"].

(** What git prints for a rename of [old.py] to [new.py] without changes. *)
Definition rename_diff : string :=
  Samples.text ["diff --git a/old.py b/new.py";
                "similarity index 100%";
                "rename from old.py";
                "rename to new.py"].



(** A text file with a line that looks like a definition, and a Python file
    with changed definitions. *)
Definition notes_diff : string :=
  Samples.text ["diff --git a/notes.txt b/notes.txt";
                "--- a/notes.txt";
                "+++ b/notes.txt";
                "@@ -1 +1,2 @@";
                " notes";
                "+def f():"].

Definition functions_diff : string :=
  Samples.text ["diff --git a/a.py b/a.py";
                "--- a/a.py";
                "+++ b/a.py";
                "@@ -1,2 +1,3 @@";
                " x = 1";
                "-def old_name(a):";
                "+    def  new_name(a, b):";
                "+class Foo(Bar):"].

(** ** Properties of the loops *)

Lemma for_each_line_flat {S : Type} (patched_file : PatchedFile.t)
    (body : S -> Line.t -> S) (init : S) :
  for_each_line patched_file body init = fold_left body (all_lines patched_file) init.
Proof.
  unfold for_each_line, all_lines.
  generalize init.
  induction (PatchedFile.hunks patched_file) as [|h hs IH]; intros st; simpl.
  - reflexivity.
  - rewrite fold_left_app. apply IH.
Qed.

Lemma fold_analyze_line (path : string) (ls : list Line.t) :
  forall (position : Z) (acc : list LineChange.t),
    fold_left (_analyze_line path) ls (position, acc)
    = (position + Z.of_nat (length ls), acc ++ number path position ls).
Proof.
  induction ls as [|l ls IH]; intros position acc.
  - simpl. rewrite Z.add_0_r, app_nil_r. reflexivity.
  - cbn [fold_left number length].
    change (_analyze_line path (position, acc) l)
      with (position + 1, acc ++ [_line_change path (position + 1) l]).
    rewrite IH, <- app_assoc. simpl app. f_equal. lia.
Qed.

Lemma line_changes_analyze (patched_file : PatchedFile.t) :
  FileAnalysis.line_changes (_analyze_file patched_file)
  = number (PatchedFile.path patched_file) 0 (all_lines patched_file).
Proof.
  unfold _analyze_file. rewrite for_each_line_flat, fold_analyze_line. reflexivity.
Qed.

Lemma length_number (path : string) (ls : list Line.t) :
  forall position, length (number path position ls) = length ls.
Proof. induction ls as [|l ls IH]; intros position; simpl; [|rewrite IH]; reflexivity. Qed.

Lemma positions_number (path : string) (ls : list Line.t) :
  forall position,
    map LineChange.position (number path position ls)
    = seqZ (position + 1) (Z.of_nat (length ls)).
Proof.
  induction ls as [|l ls IH]; intros position.
  - reflexivity.
  - cbn [number map length]. rewrite IH, (seqZ_cons (position + 1)) by lia.
    simpl LineChange.position. f_equal. f_equal; lia.
Qed.

(** With no patch set, or an empty one, every query sees no file. *)
Lemma files_falsy (self : DiffParser.t) :
  Py.truthy_list (patch_set self) = false -> files self = [].
Proof.
  unfold files. destruct (patch_set self) as [[|f ps]|]; simpl; congruence.
Qed.

Lemma get_files_map (self : DiffParser.t) :
  get_files self = map PatchedFile.path (files self).
Proof.
  unfold get_files.
  destruct (Py.truthy_list (patch_set self)) eqn:E; simpl; [reflexivity|].
  rewrite (files_falsy self E). reflexivity.
Qed.

Lemma fold_left_snoc_map {A B : Type} (f : A -> B) (l : list A) :
  forall acc, fold_left (fun acc x => acc ++ [f x]) l acc = acc ++ map f l.
Proof.
  induction l as [|x l IH]; intros acc; simpl.
  - rewrite app_nil_r. reflexivity.
  - rewrite IH, <- app_assoc. reflexivity.
Qed.

Lemma get_all_file_analyses_map (self : DiffParser.t) :
  get_all_file_analyses self = map _analyze_file (files self).
Proof.
  unfold get_all_file_analyses.
  destruct (Py.truthy_list (patch_set self)) eqn:E; simpl.
  - apply (fold_left_snoc_map _analyze_file (files self) []).
  - rewrite (files_falsy self E). reflexivity.
Qed.

Lemma _find_file_find (self : DiffParser.t) (file_path : string) :
  _find_file self file_path
  = List.find (fun f => String.eqb (PatchedFile.path f) file_path) (files self).
Proof.
  unfold _find_file.
  destruct (Py.truthy_list (patch_set self)) eqn:E; simpl; [reflexivity|].
  rewrite (files_falsy self E). reflexivity.
Qed.

Lemma analysis_of_file (self : DiffParser.t) (fa : FileAnalysis.t) :
  analysis_of self fa ->
  exists patched_file, In patched_file (files self) /\ fa = _analyze_file patched_file.
Proof.
  intros [Hin | [file_path Hget]].
  - rewrite get_all_file_analyses_map in Hin. apply in_map_iff in Hin.
    destruct Hin as [f [Hf Hin]]. exists f. split; [assumption | symmetry; assumption].
  - unfold get_file_analysis in Hget.
    destruct (negb (Py.truthy_list (patch_set self))); [discriminate|].
    rewrite _find_file_find in Hget.
    destruct (find _ (files self)) as [f|] eqn:Hfind; [|discriminate].
    destruct (negb (PatchedFile.truthy f)); [discriminate|].
    apply find_some in Hfind. exists f. split; [tauto | congruence].
Qed.

(** ** Counting *)

Lemma sum_from (l : list Z) : forall a, fold_left Z.add l a = a + Py.sum l.
Proof.
  unfold Py.sum. induction l as [|x l IH]; intros a; cbn [fold_left].
  - lia.
  - rewrite (IH (a + x)), (IH (0 + x)). lia.
Qed.

Lemma sum_cons (x : Z) (l : list Z) : Py.sum (x :: l) = x + Py.sum l.
Proof. unfold Py.sum at 1. simpl. apply sum_from. Qed.

Lemma sum_ones {A : Type} (l : list A) : Py.sum (map (fun _ => 1) l) = Z.of_nat (length l).
Proof.
  induction l as [|x l IH]; [reflexivity|].
  cbn [map length]. rewrite sum_cons, IH. lia.
Qed.

Lemma sum_count_concat {A : Type} (f : A -> bool) (ls : list (list A)) :
  Py.sum (map (fun l => Z.of_nat (length (List.filter f l))) ls)
  = Z.of_nat (length (List.filter f (List.concat ls))).
Proof.
  induction ls as [|l ls IH]; [reflexivity|].
  cbn [map List.concat]. rewrite sum_cons, IH, List.filter_app, length_app. lia.
Qed.

Lemma added_count (patched_file : PatchedFile.t) :
  PatchedFile.added patched_file
  = Z.of_nat (length (List.filter Line.is_added (all_lines patched_file))).
Proof.
  unfold PatchedFile.added, all_lines.
  rewrite <- sum_count_concat, map_map. f_equal.
  apply map_ext. intros h. unfold Hunk.added. apply sum_ones.
Qed.

Lemma removed_count (patched_file : PatchedFile.t) :
  PatchedFile.removed patched_file
  = Z.of_nat (length (List.filter Line.is_removed (all_lines patched_file))).
Proof.
  unfold PatchedFile.removed, all_lines.
  rewrite <- sum_count_concat, map_map. f_equal.
  apply map_ext. intros h. unfold Hunk.removed. apply sum_ones.
Qed.

Lemma added_kind (path : string) (position : Z) (l : Line.t) :
  has_change_type "added" (_line_change path position l) = Line.is_added l.
Proof.
  unfold has_change_type, _line_change. simpl.
  destruct (Line.is_added l), (Line.is_removed l); reflexivity.
Qed.

Lemma removed_kind (path : string) (position : Z) (l : Line.t) :
  has_change_type "removed" (_line_change path position l) = Line.is_removed l.
Proof.
  unfold has_change_type, _line_change. simpl.
  destruct (Line.is_added l) eqn:Ha, (Line.is_removed l) eqn:Hr; try reflexivity.
  unfold Line.is_added, Line.is_removed in *.
  apply String.eqb_eq in Ha. rewrite Ha in Hr. discriminate.
Qed.

Lemma count_kind_number (kind : string) (test : Line.t -> bool) (path : string) :
  (forall position l, has_change_type kind (_line_change path position l) = test l) ->
  forall ls position,
    length (List.filter (has_change_type kind) (number path position ls))
    = length (List.filter test ls).
Proof.
  intros Hkind. induction ls as [|l ls IH]; intros position; [reflexivity|].
  cbn [number List.filter]. rewrite Hkind.
  destruct (test l); cbn [length]; rewrite IH; reflexivity.
Qed.

Lemma analyze_fields (patched_file : PatchedFile.t) :
  FileAnalysis.file_path (_analyze_file patched_file) = PatchedFile.path patched_file
  /\ FileAnalysis.additions (_analyze_file patched_file) = PatchedFile.added patched_file
  /\ FileAnalysis.deletions (_analyze_file patched_file) = PatchedFile.removed patched_file
  /\ FileAnalysis.is_renamed (_analyze_file patched_file) = PatchedFile.is_rename patched_file
  /\ FileAnalysis.old_path (_analyze_file patched_file)
     = (if PatchedFile.is_rename patched_file
        then Some (PatchedFile.source_file patched_file) else None).
Proof.
  unfold _analyze_file.
  destruct (for_each_line patched_file _ _) as [position line_changes]. simpl. tauto.
Qed.

Example example_diff_parses :
  exists p, DiffParser.__init__ PatchSet.new Samples.example_diff = Returns p
            /\ get_files p = ["example.py"]
            /\ get_statistics p !! "files" = Some 1
            /\ get_statistics p !! "additions" = Some 3
            /\ get_statistics p !! "deletions" = Some 1.
Proof. exists Samples.example_parser. vm_compute. repeat split; reflexivity. Qed.

(** ** Position monotonicity *)

(** C2.  In every file analysis of a parsed diff the positions of the
    successive line changes are 1, 2, 3, ...: the counter starts at 1 in each
    file and runs on through all the hunks of the file, whose lines are all
    recorded. *)
Theorem position_monotonicity (self : DiffParser.t) (fa : FileAnalysis.t) :
  analysis_of self fa ->
  map LineChange.position (FileAnalysis.line_changes fa)
  = seqZ 1 (Z.of_nat (length (FileAnalysis.line_changes fa)))
  /\ exists patched_file,
       In patched_file (files self) /\ fa = _analyze_file patched_file
       /\ length (FileAnalysis.line_changes fa)
          = length (List.concat (map Hunk.lines (PatchedFile.hunks patched_file))).
Proof.
  intros Hfa. destruct (analysis_of_file self fa Hfa) as [f [Hin ->]].
  rewrite line_changes_analyze, positions_number, length_number.
  split; [reflexivity|].
  exists f. split; [assumption|]. split; reflexivity.
Qed.

Lemma position_monotonicity_witness :
  analysis_of Samples.example_parser (Samples.first_analysis Samples.example_parser)
  /\ map LineChange.position
       (FileAnalysis.line_changes (Samples.first_analysis Samples.example_parser))
     = [1; 2; 3; 4; 5; 6; 7].
Proof.
  assert (H : analysis_of Samples.example_parser
                (Samples.first_analysis Samples.example_parser))
    by (left; vm_compute; left; reflexivity).
  split; [exact H|].
  destruct (position_monotonicity _ _ H) as [Hpos _].
  rewrite Hpos. vm_compute. reflexivity.
Defined.

(** ** Count consistency *)

(** C5.  The additions of a file analysis count its line changes of kind
    added, and its deletions those of kind removed. *)
Theorem count_consistency (self : DiffParser.t) (fa : FileAnalysis.t) :
  analysis_of self fa ->
  FileAnalysis.additions fa
  = Z.of_nat (length (List.filter (has_change_type "added") (FileAnalysis.line_changes fa)))
  /\ FileAnalysis.deletions fa
     = Z.of_nat (length (List.filter (has_change_type "removed")
                                     (FileAnalysis.line_changes fa))).
Proof.
  intros Hfa. destruct (analysis_of_file self fa Hfa) as [f [_ ->]].
  destruct (analyze_fields f) as (_ & Hadd & Hdel & _).
  rewrite Hadd, Hdel, line_changes_analyze, added_count, removed_count.
  rewrite (count_kind_number "added" Line.is_added), (count_kind_number "removed" Line.is_removed).
  - split; reflexivity.
  - intros. apply removed_kind.
  - intros. apply added_kind.
Qed.

Lemma count_consistency_witness :
  analysis_of Samples.example_parser (Samples.first_analysis Samples.example_parser)
  /\ FileAnalysis.additions (Samples.first_analysis Samples.example_parser) = 3
  /\ FileAnalysis.deletions (Samples.first_analysis Samples.example_parser) = 1.
Proof.
  assert (H : analysis_of Samples.example_parser
                (Samples.first_analysis Samples.example_parser))
    by (left; vm_compute; left; reflexivity).
  split; [exact H|].
  destruct (count_consistency _ _ H) as [Hadd Hdel].
  rewrite Hadd, Hdel. vm_compute. split; reflexivity.
Defined.

(** ** Aggregate consistency *)

Lemma get_statistics_files (self : DiffParser.t) :
  get_statistics self
  = <["files" := Z.of_nat (length (files self))]>
      (<["additions" := Py.sum (map PatchedFile.added (files self))]>
         (<["deletions" := Py.sum (map PatchedFile.removed (files self))]> ∅)).
Proof.
  unfold get_statistics.
  destruct (Py.truthy_list (patch_set self)) eqn:E; simpl; [reflexivity|].
  rewrite (files_falsy self E). reflexivity.
Qed.

(** C4.  The statistics of a parsed diff are the number of its file analyses
    and the sums of their additions and of their deletions. *)
Theorem aggregate_consistency (self : DiffParser.t) :
  get_statistics self !! "files" = Some (Z.of_nat (length (get_all_file_analyses self)))
  /\ get_statistics self !! "additions"
     = Some (Py.sum (map FileAnalysis.additions (get_all_file_analyses self)))
  /\ get_statistics self !! "deletions"
     = Some (Py.sum (map FileAnalysis.deletions (get_all_file_analyses self))).
Proof.
  rewrite get_statistics_files, get_all_file_analyses_map, length_map, !map_map.
  rewrite (map_ext (fun f => FileAnalysis.additions (_analyze_file f)) PatchedFile.added)
    by (intros f; apply (analyze_fields f)).
  rewrite (map_ext (fun f => FileAnalysis.deletions (_analyze_file f)) PatchedFile.removed)
    by (intros f; apply (analyze_fields f)).
  repeat split; simplify_map_eq; reflexivity.
Qed.

(** ** Empty input *)

Lemma rstrip_by_all (p : ascii -> bool) (s : string) :
  forallb p (list_ascii_of_string s) = true -> Py.rstrip_by p s = "".
Proof.
  induction s as [|c s IH]; simpl; [reflexivity|].
  intros H. apply andb_prop in H. destruct H as [Hc Hs].
  rewrite (IH Hs), Hc. reflexivity.
Qed.

Lemma strip_whitespace_only (s : string) :
  whitespace_only s = true -> Py.strip s = "".
Proof.
  intros H. unfold Py.strip. rewrite (rstrip_by_all _ _ H). reflexivity.
Qed.


(** C6.  On the empty string and on any text of white space only the
    constructor returns, whatever the [PatchSet] constructor would do, a
    parser without files whose statistics are all zero. *)
Theorem empty_input (PatchSet_ : string -> result PatchSet.t) (diff_text : string) :
  whitespace_only diff_text = true ->
  exists p,
    DiffParser.__init__ PatchSet_ diff_text = Returns p
    /\ get_files p = []
    /\ get_all_file_analyses p = []
    /\ get_statistics p
       = <["files" := 0]> (<["additions" := 0]> (<["deletions" := 0]> ∅)).
Proof.
  intros H. exists (DiffParser.mk diff_text None).
  unfold DiffParser.__init__. rewrite (strip_whitespace_only _ H).
  repeat split.
Qed.

Lemma empty_input_witness :
  whitespace_only (String " " (String Py.LF (String Py.TAB " "))) = true
  /\ exists p,
       DiffParser.__init__ PatchSet.new (String " " (String Py.LF (String Py.TAB " ")))
       = Returns p
       /\ get_files p = []
       /\ get_all_file_analyses p = []
       /\ get_statistics p
          = <["files" := 0]> (<["additions" := 0]> (<["deletions" := 0]> ∅)).
Proof.
  split; [reflexivity|].
  apply (empty_input PatchSet.new (String " " (String Py.LF (String Py.TAB " ")))).
  reflexivity.
Defined.

Example empty_string_input :
  exists p,
    DiffParser.__init__ PatchSet.new "" = Returns p
    /\ get_files p = [] /\ get_all_file_analyses p = []
    /\ get_statistics p !! "files" = Some 0
    /\ get_statistics p !! "additions" = Some 0
    /\ get_statistics p !! "deletions" = Some 0.
Proof. exists (DiffParser.mk "" None). vm_compute. repeat split; reflexivity. Qed.

(** ** Added lines with positions *)

Lemma fold_added_step (path : string) (ls : list Line.t) :
  forall (position : Z) (acc : list added_line),
    fold_left _added_step ls (position, acc)
    = (position + Z.of_nat (length ls),
       acc ++ map added_tuple
                (List.filter (has_change_type "added") (number path position ls))).
Proof.
  induction ls as [|l ls IH]; intros position acc.
  - simpl. rewrite Z.add_0_r, app_nil_r. reflexivity.
  - cbn [fold_left number length List.filter]. rewrite added_kind.
    unfold _added_step at 2.
    destruct (Line.is_added l); rewrite IH.
    + cbn [map]. rewrite <- app_assoc. simpl app. f_equal. lia.
    + f_equal. lia.
Qed.

Lemma added_lines_of_analysis (patched_file : PatchedFile.t) :
  added_lines_of patched_file = added_tuples (_analyze_file patched_file).
Proof.
  unfold added_lines_of, added_tuples.
  rewrite for_each_line_flat, line_changes_analyze.
  rewrite (fold_added_step (PatchedFile.path patched_file)). reflexivity.
Qed.

Lemma fold_left_pointwise {A B : Type} (f g : A -> B -> A) (l : list B) :
  (forall a b, f a b = g a b) -> forall a, fold_left f l a = fold_left g l a.
Proof.
  intros Hfg. induction l as [|b l IH]; intros a; simpl; [reflexivity|].
  rewrite Hfg. apply IH.
Qed.

Lemma get_added_lines_fold (self : DiffParser.t) :
  get_added_lines_with_positions self = fold_left _added_file_step (files self) ∅.
Proof.
  unfold get_added_lines_with_positions.
  destruct (Py.truthy_list (patch_set self)) eqn:E; simpl.
  - apply fold_left_pointwise. intros result f.
    unfold _added_file_step, added_lines_of.
    destruct (for_each_line f _added_step (0, [])) as [position [|a v]]; reflexivity.
  - rewrite (files_falsy self E). reflexivity.
Qed.

Lemma lookup_fold_added (file_path : string) (fs : list PatchedFile.t) :
  forall result : gmap string (list added_line),
    fold_left _added_file_step fs result !! file_path
    = match last_entry file_path fs with
      | Some v => Some v
      | None => result !! file_path
      end.
Proof.
  induction fs as [|f fs IH]; intros result; [reflexivity|].
  cbn [fold_left last_entry]. rewrite IH.
  destruct (last_entry file_path fs) as [v|]; [reflexivity|].
  unfold _added_file_step.
  destruct (String.eqb_spec (PatchedFile.path f) file_path) as [Heq|Hne].
  - destruct (added_lines_of f) as [|a v]; [reflexivity|].
    rewrite Heq. apply lookup_insert_eq.
  - destruct (added_lines_of f) as [|a v]; [reflexivity|].
    apply lookup_insert_ne. assumption.
Qed.

Lemma last_entry_Some (file_path : string) (fs : list PatchedFile.t) (v : list added_line) :
  last_entry file_path fs = Some v ->
  v <> [] /\ exists f, In f fs /\ PatchedFile.path f = file_path /\ v = added_lines_of f.
Proof.
  induction fs as [|f fs IH]; [discriminate|].
  cbn [last_entry]. destruct (last_entry file_path fs) as [v'|].
  - intros [= <-]. destruct (IH eq_refl) as [Hne [f' (Hin & Hp & Hv)]].
    split; [assumption|]. exists f'. split; [right; assumption | tauto].
  - destruct (String.eqb_spec (PatchedFile.path f) file_path) as [Heq|Hne]; [|discriminate].
    destruct (added_lines_of f) as [|a w] eqn:Hf; [discriminate|].
    intros [= <-]. split; [discriminate|].
    exists f. split; [left; reflexivity | split; [assumption | symmetry; assumption]].
Qed.

Lemma last_entry_None (file_path : string) (fs : list PatchedFile.t) :
  last_entry file_path fs = None ->
  forall f, In f fs -> PatchedFile.path f = file_path -> added_lines_of f = [].
Proof.
  induction fs as [|f fs IH]; [intros _ f []|].
  cbn [last_entry]. destruct (last_entry file_path fs) as [v'|]; [discriminate|].
  intros H f' [<- | Hin] Hp.
  - rewrite <- String.eqb_eq in Hp. rewrite Hp in H.
    destruct (added_lines_of f); [reflexivity | discriminate].
  - apply (IH eq_refl f' Hin Hp).
Qed.

(** Positions of the added tuples grow strictly. *)
Lemma added_positions_sorted (path : string) (ls : list Line.t) :
  forall position,
    let ps := map (fun t : added_line => fst (fst t))
                  (map added_tuple
                       (List.filter (has_change_type "added") (number path position ls))) in
    Forall (fun q => position < q) ps /\ StronglySorted Z.lt ps.
Proof.
  induction ls as [|l ls IH]; intros position; cbn zeta.
  - split; constructor.
  - cbn [number List.filter]. destruct (IH (position + 1)) as [Hlt Hs].
    cbn zeta in Hlt, Hs.
    destruct (has_change_type "added" (_line_change path (position + 1) l)).
    + cbn [map]. simpl fst. split.
      * constructor; [lia|]. eapply List.Forall_impl; [|exact Hlt]. simpl. intros; lia.
      * constructor; assumption.
    + split; [|assumption].
      eapply List.Forall_impl; [|exact Hlt]. simpl. intros; lia.
Qed.

Lemma additions_zero_iff (patched_file : PatchedFile.t) :
  FileAnalysis.additions (_analyze_file patched_file) = 0
  <-> added_tuples (_analyze_file patched_file) = [].
Proof.
  destruct (analyze_fields patched_file) as (_ & Hadd & _).
  rewrite Hadd, added_count. unfold added_tuples.
  rewrite line_changes_analyze.
  pose proof (count_kind_number "added" Line.is_added (PatchedFile.path patched_file)
                (added_kind (PatchedFile.path patched_file))
                (all_lines patched_file) 0) as Hcount.
  rewrite <- Hcount.
  destruct (List.filter (has_change_type "added") _) as [|lc lcs]; simpl.
  - tauto.
  - split; [lia | discriminate].
Qed.

Lemma added_tuples_sorted (patched_file : PatchedFile.t) :
  StronglySorted Z.lt
    (map (fun t : added_line => fst (fst t)) (added_tuples (_analyze_file patched_file))).
Proof.
  unfold added_tuples. rewrite line_changes_analyze.
  apply (added_positions_sorted (PatchedFile.path patched_file) (all_lines patched_file) 0).
Qed.

Lemma last_entry_absent (file_path : string) (fs : list PatchedFile.t) :
  occurrences file_path (map PatchedFile.path fs) = 0%nat ->
  last_entry file_path fs = None.
Proof.
  unfold occurrences. induction fs as [|f fs IH]; [reflexivity|].
  cbn [map List.filter last_entry].
  rewrite (String.eqb_sym (PatchedFile.path f) file_path).
  destruct (String.eqb file_path (PatchedFile.path f)); [discriminate|].
  intros H. rewrite (IH H). reflexivity.
Qed.

Lemma find_snoc {A : Type} (test : A -> bool) (l : list A) (a : A) :
  List.find test (l ++ [a])
  = match List.find test l with
    | Some x => Some x
    | None => if test a then Some a else None
    end.
Proof.
  induction l as [|x l IH]; [reflexivity|].
  cbn [app List.find]. destruct (test x); [reflexivity | exact IH].
Qed.

(** The entry of a path is that of the last analysis of the path that has
    additions. *)
Lemma last_entry_find (file_path : string) (fs : list PatchedFile.t) :
  last_entry file_path fs
  = option_map added_tuples
      (List.find (adds_under file_path) (List.rev (map _analyze_file fs))).
Proof.
  induction fs as [|f fs IH]; [reflexivity|].
  cbn [last_entry map List.rev]. rewrite find_snoc, IH.
  destruct (List.find (adds_under file_path) (List.rev (map _analyze_file fs))) as [fa|];
    [reflexivity|].
  cbn [option_map]. unfold adds_under.
  destruct (analyze_fields f) as (Hpath & _). rewrite Hpath.
  destruct (String.eqb (PatchedFile.path f) file_path); [|reflexivity].
  cbn [andb]. rewrite added_lines_of_analysis.
  destruct (Z.eqb_spec (FileAnalysis.additions (_analyze_file f)) 0) as [Hzero|Hsome].
  - apply additions_zero_iff in Hzero. rewrite Hzero. reflexivity.
  - cbn [negb option_map].
    destruct (added_tuples (_analyze_file f)) as [|a v] eqn:E; [|reflexivity].
    exfalso. apply Hsome, additions_zero_iff. exact E.
Qed.

Lemma occurrences_in (file_path : string) (paths : list string) :
  In file_path paths -> occurrences file_path paths <> 0%nat.
Proof.
  unfold occurrences. induction paths as [|p paths IH]; [intros []|].
  cbn [List.filter]. destruct (String.eqb_spec file_path p) as [_|Hne].
  - discriminate.
  - intros [Heq|Hin]; [congruence | apply (IH Hin)].
Qed.

(** When one file only carries the path, the entry is that of this file. *)
Lemma last_entry_unique (file_path : string) (fs : list PatchedFile.t) (f : PatchedFile.t) :
  occurrences file_path (map PatchedFile.path fs) = 1%nat ->
  In f fs -> PatchedFile.path f = file_path ->
  last_entry file_path fs
  = match added_lines_of f with
    | [] => None
    | v => Some v
    end.
Proof.
  unfold occurrences. induction fs as [|f0 fs IH]; [intros _ []|].
  cbn [map List.filter last_entry].
  rewrite (String.eqb_sym (PatchedFile.path f0) file_path).
  destruct (String.eqb_spec file_path (PatchedFile.path f0)) as [Heq|Hne].
  - cbn [length]. intros [= Hzero] Hin Hpath.
    rewrite (last_entry_absent _ _ Hzero).
    destruct Hin as [<- | Hin]; [reflexivity|].
    exfalso. apply (occurrences_in file_path (map PatchedFile.path fs)); [|exact Hzero].
    rewrite <- Hpath. apply in_map. exact Hin.
  - intros Hone [<- | Hin] Hpath; [congruence|].
    rewrite (IH Hone Hin Hpath). destruct (added_lines_of f); reflexivity.
Qed.

(** C3, as far as it holds.  Under each path the mapping holds the tuples
    (position, target line number, content) of the line changes of kind added
    of one analysis of that path, in the order of their positions and never
    an empty list: the last analysis of the path that has additions.  A path
    is absent exactly when no analysis of the path has additions; an analysis
    without additions has its path absent when no other section carries the
    path. *)
Theorem added_lines_mapping (self : DiffParser.t) (file_path : string) :
  get_added_lines_with_positions self !! file_path
  = option_map added_tuples
      (List.find (adds_under file_path) (List.rev (get_all_file_analyses self)))
  /\ (forall v, get_added_lines_with_positions self !! file_path = Some v ->
        v <> []
        /\ StronglySorted Z.lt (map (fun t : added_line => fst (fst t)) v)
        /\ exists fa, In fa (get_all_file_analyses self)
                      /\ FileAnalysis.file_path fa = file_path
                      /\ v = added_tuples fa)
  /\ (get_added_lines_with_positions self !! file_path = None
      <-> forall fa, In fa (get_all_file_analyses self) ->
                     FileAnalysis.file_path fa = file_path ->
                     FileAnalysis.additions fa = 0)
  /\ (forall fa, In fa (get_all_file_analyses self) ->
        FileAnalysis.file_path fa = file_path ->
        occurrences file_path (get_files self) = 1%nat ->
        get_added_lines_with_positions self !! file_path
        = if FileAnalysis.additions fa =? 0 then None else Some (added_tuples fa)).
Proof.
  rewrite get_added_lines_fold, lookup_fold_added, lookup_empty, get_all_file_analyses_map,
    get_files_map.
  assert (Hsome : forall v, last_entry file_path (files self) = Some v ->
            v <> []
            /\ StronglySorted Z.lt (map (fun t : added_line => fst (fst t)) v)
            /\ exists fa, In fa (map _analyze_file (files self))
                          /\ FileAnalysis.file_path fa = file_path
                          /\ v = added_tuples fa).
  { intros v Hv. destruct (last_entry_Some _ _ _ Hv) as [Hne [f (Hin & Hp & ->)]].
    rewrite added_lines_of_analysis in *.
    split; [assumption|]. split; [apply added_tuples_sorted|].
    exists (_analyze_file f). split; [apply in_map; assumption|].
    split; [|reflexivity]. rewrite <- Hp. apply (analyze_fields f). }
  split; [|split; [|split]].
  - rewrite <- last_entry_find. destruct (last_entry file_path (files self)); reflexivity.
  - intros v Hv. apply Hsome. destruct (last_entry file_path (files self)); congruence.
  - destruct (last_entry file_path (files self)) as [v|] eqn:Hlast.
    + split; [discriminate|]. intros Hzero. exfalso.
      destruct (Hsome v eq_refl) as [Hne [_ [fa (Hin & Hp & ->)]]].
      apply in_map_iff in Hin. destruct Hin as [f [<- Hin]].
      apply Hne, additions_zero_iff, Hzero; [apply in_map; assumption | assumption].
    + split; [|reflexivity]. intros _ fa Hin Hp.
      apply in_map_iff in Hin. destruct Hin as [f [<- Hin]].
      apply additions_zero_iff. rewrite <- added_lines_of_analysis.
      apply (last_entry_None _ _ Hlast f Hin).
      rewrite <- Hp. symmetry. apply (analyze_fields f).
  - intros fa Hin Hp Hone.
    apply in_map_iff in Hin. destruct Hin as [f [<- Hin]].
    assert (Hpath : PatchedFile.path f = file_path).
    { rewrite <- Hp. symmetry. apply (analyze_fields f). }
    rewrite (last_entry_unique _ _ f Hone Hin Hpath), added_lines_of_analysis.
    destruct (Z.eqb_spec (FileAnalysis.additions (_analyze_file f)) 0) as [Hzero|Hadds].
    + apply additions_zero_iff in Hzero. rewrite Hzero. reflexivity.
    + destruct (added_tuples (_analyze_file f)) as [|a v] eqn:E; [|reflexivity].
      exfalso. apply Hadds, additions_zero_iff. exact E.
Qed.

Lemma added_lines_mapping_witness :
  exists v,
    get_added_lines_with_positions Samples.example_parser !! "example.py" = Some v
    /\ map position_and_target v = [(3, Some 2); (4, Some 3); (5, Some 4)]
    /\ v <> []
    /\ StronglySorted Z.lt (map (fun t : added_line => fst (fst t)) v)
    /\ occurrences "example.py" (get_files Samples.example_parser) = 1%nat
    /\ v = added_tuples (Samples.first_analysis Samples.example_parser).
Proof.
  destruct (added_lines_mapping Samples.example_parser "example.py")
    as (_ & Hsome & _ & Hunique).
  assert (Hin : In (Samples.first_analysis Samples.example_parser)
                   (get_all_file_analyses Samples.example_parser))
    by (vm_compute; left; reflexivity).
  assert (Hpath : FileAnalysis.file_path (Samples.first_analysis Samples.example_parser)
                  = "example.py") by (vm_compute; reflexivity).
  assert (Hone : occurrences "example.py" (get_files Samples.example_parser) = 1%nat)
    by (vm_compute; reflexivity).
  assert (Hadds : (FileAnalysis.additions (Samples.first_analysis Samples.example_parser)
                   =? 0) = false) by (vm_compute; reflexivity).
  pose proof (Hunique _ Hin Hpath Hone) as Hv. rewrite Hadds in Hv.
  exists (added_tuples (Samples.first_analysis Samples.example_parser)).
  split; [exact Hv|]. split; [vm_compute; reflexivity|].
  destruct (Hsome _ Hv) as (Hne & Hsorted & _).
  split; [exact Hne|]. split; [exact Hsorted|]. split; [exact Hone | reflexivity].
Defined.

(** C3 as stated fails when two sections carry one path: the first section
    of [x.py] has no added line, and [x.py] is a key of the mapping, with the
    added line of the second section. *)
Lemma added_lines_key_without_additions :
  exists fa v,
    In fa (get_all_file_analyses (Samples.parser_of removal_then_addition_diff))
    /\ FileAnalysis.file_path fa = "x.py"
    /\ FileAnalysis.additions fa = 0
    /\ List.filter (has_change_type "added") (FileAnalysis.line_changes fa) = []
    /\ get_added_lines_with_positions (Samples.parser_of removal_then_addition_diff) !! "x.py"
       = Some v
    /\ v = [(1, Some 1, "c")].
Proof.
  exists (Samples.first_analysis (Samples.parser_of removal_then_addition_diff)).
  eexists.
  split; [vm_compute; left; reflexivity|].
  split; [vm_compute; reflexivity|].
  split; [vm_compute; reflexivity|].
  split; [vm_compute; reflexivity|].
  split; [vm_compute; reflexivity | reflexivity].
Qed.

Example added_lines_example :
  get_added_lines_with_positions Samples.example_parser !! "example.py"
  = Some [(3, Some 2, "    print(" +:+ Samples.quoted "Hello, World!" +:+ ")");
          (4, Some 3, "    return " +:+ Samples.quoted "greeting");
          (5, Some 4, "")].
Proof. vm_compute. reflexivity. Qed.

(** ** The two position counters *)

Lemma unique_path_entry (file_path : string) (fs : list PatchedFile.t) (v : list added_line) :
  occurrences file_path (map PatchedFile.path fs) = 1%nat ->
  last_entry file_path fs = Some v ->
  exists f, List.find (fun f => String.eqb (PatchedFile.path f) file_path) fs = Some f
            /\ v = added_lines_of f /\ v <> [].
Proof.
  unfold occurrences. induction fs as [|f fs IH]; [discriminate|].
  cbn [map List.filter last_entry List.find].
  rewrite (String.eqb_sym (PatchedFile.path f) file_path).
  destruct (String.eqb file_path (PatchedFile.path f)).
  - cbn [length]. intros [= Hzero]. rewrite (last_entry_absent _ _ Hzero).
    destruct (added_lines_of f) as [|a w] eqn:Hf; [discriminate|].
    intros [= <-]. exists f. repeat split; [symmetry; assumption | discriminate].
  - intros Hone. destruct (last_entry file_path fs) as [w|]; [|discriminate].
    intros [= <-]. apply (IH Hone eq_refl).
Qed.

Lemma added_lines_need_hunk (patched_file : PatchedFile.t) :
  added_lines_of patched_file <> [] -> PatchedFile.truthy patched_file = true.
Proof.
  unfold added_lines_of, for_each_line, PatchedFile.truthy.
  destruct (PatchedFile.hunks patched_file); simpl; [congruence | reflexivity].
Qed.

Lemma files_truthy (self : DiffParser.t) :
  files self <> [] -> Py.truthy_list (patch_set self) = true.
Proof.
  unfold files. destruct (patch_set self) as [[|f ps]|]; simpl; congruence.
Qed.

(** C10, as far as it holds.  For a path that heads one section of the diff
    only, the entry of [get_added_lines_with_positions] is the list of the
    added line changes of the analysis [get_file_analysis] returns for that
    path: same positions, same target line numbers, same contents. *)
Theorem added_positions_agree (self : DiffParser.t) (file_path : string)
    (v : list added_line) :
  occurrences file_path (get_files self) = 1%nat ->
  get_added_lines_with_positions self !! file_path = Some v ->
  exists fa,
    get_file_analysis self file_path = Some fa
    /\ v = added_tuples fa
    /\ map position_and_target v
       = map (fun lc => (LineChange.position lc, LineChange.target_line_no lc))
             (List.filter (has_change_type "added") (FileAnalysis.line_changes fa)).
Proof.
  rewrite get_files_map, get_added_lines_fold, lookup_fold_added, lookup_empty.
  intros Hone Hv.
  destruct (last_entry file_path (files self)) as [w|] eqn:Hlast; [|discriminate].
  injection Hv as ->.
  destruct (unique_path_entry _ _ _ Hone Hlast) as [f (Hfind & -> & Hne)].
  exists (_analyze_file f).
  assert (Hfiles : files self <> []).
  { intros E. rewrite E in Hfind. discriminate. }
  unfold get_file_analysis.
  rewrite (files_truthy self Hfiles), _find_file_find, Hfind.
  rewrite (added_lines_need_hunk f Hne). cbn [negb].
  rewrite added_lines_of_analysis. repeat split.
  unfold added_tuples. rewrite map_map. reflexivity.
Qed.

Lemma added_positions_agree_witness :
  occurrences "example.py" (get_files Samples.example_parser) = 1%nat
  /\ exists v fa,
       get_added_lines_with_positions Samples.example_parser !! "example.py" = Some v
       /\ get_file_analysis Samples.example_parser "example.py" = Some fa
       /\ map position_and_target v = [(3, Some 2); (4, Some 3); (5, Some 4)]
       /\ map position_and_target v
          = map (fun lc => (LineChange.position lc, LineChange.target_line_no lc))
                (List.filter (has_change_type "added") (FileAnalysis.line_changes fa)).
Proof.
  assert (Hone : occurrences "example.py" (get_files Samples.example_parser) = 1%nat)
    by (vm_compute; reflexivity).
  split; [exact Hone|].
  destruct (added_positions_agree Samples.example_parser "example.py" _ Hone
              added_lines_example) as [fa (Hget & _ & Hpairs)].
  eexists. exists fa.
  split; [exact added_lines_example|]. split; [exact Hget|].
  split; [vm_compute; reflexivity | exact Hpairs].
Defined.

(** C10 as stated fails when two sections carry one path: the mapping keeps
    the added lines of the last section, the analysis is that of the first. *)
Lemma added_positions_disagree :
  exists v fa,
    get_added_lines_with_positions (Samples.parser_of two_sections_diff) !! "x.py" = Some v
    /\ get_file_analysis (Samples.parser_of two_sections_diff) "x.py" = Some fa
    /\ map position_and_target v = [(1, Some 1)]
    /\ map (fun lc => (LineChange.position lc, LineChange.target_line_no lc))
           (List.filter (has_change_type "added") (FileAnalysis.line_changes fa))
       = [(2, Some 1)].
Proof.
  eexists. eexists.
  split; [vm_compute; reflexivity|].
  split; [vm_compute; reflexivity|].
  split; vm_compute; reflexivity.
Qed.

(** ** The order of the files

    [get_files] follows the patch set.  The lemmas on [extends] say how the
    constructor of the package, as modelled for text diffs, builds the patch
    set: it appends a file when it reads the header of the file, and
    afterwards changes the last file only. *)

Lemma update_last_id (l : PatchSet.t) : PatchSet.update_last (fun f => f) l = l.
Proof.
  induction l as [|f l IH]; [reflexivity|].
  cbn [PatchSet.update_last]. destruct l; [reflexivity|]. rewrite IH. reflexivity.
Qed.

Lemma update_last_app (g : PatchedFile.t -> PatchedFile.t) (l new : PatchSet.t) :
  new <> [] -> PatchSet.update_last g (l ++ new) = l ++ PatchSet.update_last g new.
Proof.
  intros Hnew. induction l as [|f l IH]; [reflexivity|].
  cbn [app PatchSet.update_last]. rewrite IH.
  destruct (l ++ new) eqn:E; [|reflexivity].
  apply app_eq_nil in E. tauto.
Qed.

Lemma update_last_compose (g g' : PatchedFile.t -> PatchedFile.t) (l : PatchSet.t) :
  PatchSet.update_last g' (PatchSet.update_last g l)
  = PatchSet.update_last (fun f => g' (g f)) l.
Proof.
  induction l as [|f l IH]; [reflexivity|].
  cbn [PatchSet.update_last]. destruct l as [|f' l]; [reflexivity|].
  rewrite <- IH. cbn [PatchSet.update_last]. destruct l; reflexivity.
Qed.

Lemma extends_refl (l : PatchSet.t) : extends l l.
Proof. exists (fun f => f), []. rewrite update_last_id, app_nil_r. reflexivity. Qed.

Lemma extends_update (g : PatchedFile.t -> PatchedFile.t) (l : PatchSet.t) :
  extends l (PatchSet.update_last g l).
Proof. exists g, []. rewrite app_nil_r. reflexivity. Qed.

Lemma extends_append (l : PatchSet.t) (f : PatchedFile.t) : extends l (l ++ [f]).
Proof. exists (fun f => f), [f]. rewrite update_last_id. reflexivity. Qed.

Lemma extends_trans (l1 l2 l3 : PatchSet.t) : extends l1 l2 -> extends l2 l3 -> extends l1 l3.
Proof.
  intros [g [new ->]] [g' [new' ->]].
  destruct new as [|f new].
  - rewrite app_nil_r, update_last_compose. eexists _, new'. reflexivity.
  - rewrite update_last_app by discriminate. rewrite <- app_assoc.
    eexists g, _. reflexivity.
Qed.

Lemma close_hunk_extends (st st' : PatchSet.state) (oh : PatchSet.open_hunk) :
  PatchSet.close_hunk st oh = Returns st' -> extends (PatchSet.self st) (PatchSet.self st').
Proof.
  unfold PatchSet.close_hunk. case_match; [discriminate|].
  intros [= <-]. apply extends_update.
Qed.

Lemma hunk_line_extends (st st' : PatchSet.state) (oh : PatchSet.open_hunk) (line : string) :
  PatchSet.hunk_line st oh line = Returns st' ->
  extends (PatchSet.self st) (PatchSet.self st').
Proof.
  unfold PatchSet.hunk_line.
  repeat case_match; try discriminate;
    first [apply close_hunk_extends | intros [= <-]; apply extends_refl].
Qed.

Lemma top_line_extends (st st' : PatchSet.state) (line : string) :
  PatchSet.top_line st line = Returns st' ->
  extends (PatchSet.self st) (PatchSet.self st').
Proof.
  unfold PatchSet.top_line, Py.bind.
  repeat case_match; try discriminate; intros [= <-]; cbn [PatchSet.self];
    first [apply extends_refl | apply extends_update | apply extends_append].
Qed.

Lemma parse_line_extends (st st' : PatchSet.state) (line : string) :
  PatchSet.parse_line st line = Returns st' ->
  extends (PatchSet.self st) (PatchSet.self st').
Proof.
  unfold PatchSet.parse_line. case_match.
  - apply hunk_line_extends.
  - apply top_line_extends.
Qed.

Lemma parse_lines_extends (diff : list string) :
  forall st st',
    PatchSet.parse_lines st diff = Returns st' ->
    extends (PatchSet.self st) (PatchSet.self st').
Proof.
  induction diff as [|line diff IH]; intros st st'; cbn [PatchSet.parse_lines].
  - case_match; [apply close_hunk_extends|]. intros [= <-]. apply extends_refl.
  - destruct (PatchSet.parse_line st line) as [st1|e] eqn:Hline; [|discriminate].
    cbn [Py.bind]. intros Hrest.
    eapply extends_trans; [apply (parse_line_extends _ _ _ Hline) | apply (IH _ _ Hrest)].
Qed.







(** ** The context of a line *)

Lemma rstrip_by_weaker (p q : ascii -> bool) :
  (forall c, q c = true -> p c = true) ->
  forall s, Py.rstrip_by p (Py.rstrip_by q s) = Py.rstrip_by p s.
Proof.
  intros Hqp. induction s as [|c s IH]; [reflexivity|].
  cbn [Py.rstrip_by].
  destruct (Py.rstrip_by q s) as [|d r] eqn:Hq.
  - cbn [Py.rstrip_by] in IH. rewrite <- IH.
    destruct (q c) eqn:Hc.
    + rewrite (Hqp c Hc). reflexivity.
    + reflexivity.
  - rewrite <- IH. reflexivity.
Qed.

Lemma rstrip_line_content (v : string) :
  Py.rstrip (Py.rstrip_chars (String Py.LF "") v) = Py.rstrip v.
Proof.
  unfold Py.rstrip, Py.rstrip_chars. apply rstrip_by_weaker.
  intros c. cbn [Py.mem_char]. rewrite orb_false_r. intros Hc.
  apply Ascii.eqb_eq in Hc. rewrite Hc. reflexivity.
Qed.

Lemma context_step_line (path : string) (position line_number context_lines : Z)
    (target_lines : list string) (l : Line.t) :
  _context_step line_number context_lines target_lines l
  = if near line_number context_lines (_line_change path position l)
    then target_lines ++ [render (_line_change path position l)]
    else target_lines.
Proof.
  unfold _context_step, near, render, marker.
  rewrite added_kind, removed_kind.
  cbn [_line_change LineChange.target_line_no LineChange.line_content].
  rewrite rstrip_line_content.
  destruct (Line.target_line_no l) as [target|]; reflexivity.
Qed.

Lemma fold_context_step (path : string) (line_number context_lines : Z) (ls : list Line.t) :
  forall (position : Z) (acc : list string),
    fold_left (_context_step line_number context_lines) ls acc
    = acc ++ map render
               (List.filter (near line_number context_lines) (number path position ls)).
Proof.
  induction ls as [|l ls IH]; intros position acc.
  - simpl. rewrite app_nil_r. reflexivity.
  - cbn [fold_left number List.filter].
    rewrite (context_step_line path (position + 1)), (IH (position + 1)).
    destruct (near line_number context_lines (_line_change path (position + 1) l)).
    + cbn [map]. rewrite <- app_assoc. reflexivity.
    + reflexivity.
Qed.

Lemma context_of_file (patched_file : PatchedFile.t) (line_number context_lines : Z) :
  match for_each_line patched_file (_context_step line_number context_lines) [] with
  | [] => None
  | target_lines => Some (Py.join (String Py.LF "") target_lines)
  end
  = context_of line_number context_lines (_analyze_file patched_file).
Proof.
  unfold context_of.
  rewrite for_each_line_flat, line_changes_analyze.
  rewrite (fold_context_step (PatchedFile.path patched_file) _ _ _ 0).
  cbn [app]. destruct (List.filter _ _); reflexivity.
Qed.

Lemma find_absent (file_path : string) (fs : list PatchedFile.t) :
  occurrences file_path (map PatchedFile.path fs) = 0%nat ->
  List.find (fun f => String.eqb (PatchedFile.path f) file_path) fs = None.
Proof.
  unfold occurrences. induction fs as [|f fs IH]; [reflexivity|].
  cbn [map List.filter List.find].
  rewrite (String.eqb_sym (PatchedFile.path f) file_path).
  destruct (String.eqb file_path (PatchedFile.path f)); [discriminate | exact IH].
Qed.

(** C8, as far as it holds.  The context of a line is made of the line changes,
    in the order of their positions, of the analysis [get_file_analysis]
    returns for the path: those with a target line number that is not zero
    and at most [context_lines] away from [line_number], each as its marker, a
    space and its content without trailing white space, joined by line feeds.
    It is [None] when there is no such analysis, when no line change is near,
    and so when the path is not one of [get_files]. *)
Theorem lines_context (self : DiffParser.t) (file_path : string)
    (line_number context_lines : Z) :
  get_modified_lines_context self file_path line_number context_lines
  = match get_file_analysis self file_path with
    | None => None
    | Some fa => context_of line_number context_lines fa
    end
  /\ (occurrences file_path (get_files self) = 0%nat ->
      get_modified_lines_context self file_path line_number context_lines = None).
Proof.
  assert (Heq : get_modified_lines_context self file_path line_number context_lines
                = match get_file_analysis self file_path with
                  | None => None
                  | Some fa => context_of line_number context_lines fa
                  end).
  { unfold get_modified_lines_context, get_file_analysis.
    destruct (Py.truthy_list (patch_set self)) eqn:E; cbn [negb].
    - destruct (_find_file self file_path) as [f|]; [|reflexivity].
      destruct (PatchedFile.truthy f); cbn [negb]; [|reflexivity].
      apply context_of_file.
    - unfold _find_file. rewrite E. reflexivity. }
  split; [exact Heq|].
  intros Habsent. rewrite Heq. unfold get_file_analysis.
  rewrite get_files_map in Habsent.
  rewrite _find_file_find, (find_absent _ _ Habsent).
  destruct (negb (Py.truthy_list (patch_set self))); reflexivity.
Qed.

Lemma lines_context_witness :
  get_modified_lines_context Samples.example_parser "example.py" 3 1
  = Some (Py.join (String Py.LF "")
            ["+     print(" +:+ Samples.quoted "Hello, World!" +:+ ")";
             "+     return " +:+ Samples.quoted "greeting";
             "+ "])
  /\ occurrences "other.py" (get_files Samples.example_parser) = 0%nat
  /\ get_modified_lines_context Samples.example_parser "other.py" 3 1 = None.
Proof.
  destruct (lines_context Samples.example_parser "example.py" 3 1) as [Heq _].
  destruct (lines_context Samples.example_parser "other.py" 3 1) as [_ Habsent].
  split; [rewrite Heq; vm_compute; reflexivity|].
  assert (H : occurrences "other.py" (get_files Samples.example_parser) = 0%nat)
    by (vm_compute; reflexivity).
  split; [exact H | exact (Habsent H)].
Defined.

(** C8 as stated fails for a line whose target line number is zero: it is at
    most [context_lines] away from line zero and yet left out. *)
Lemma lines_context_skips_line_zero :
  get_modified_lines_context (Samples.parser_of zero_target_diff) "x" 0 3 = None
  /\ exists fa lc,
       get_file_analysis (Samples.parser_of zero_target_diff) "x" = Some fa
       /\ In lc (FileAnalysis.line_changes fa)
       /\ LineChange.target_line_no lc = Some 0
       /\ Z.abs (0 - 0) <= 3.
Proof.
  split; [vm_compute; reflexivity|].
  eexists. eexists.
  split; [vm_compute; reflexivity|].
  split; [left; reflexivity|].
  split; [reflexivity | lia].
Qed.

(** ** A rename without line changes *)

Lemma rename_old_path (patched_file : PatchedFile.t) :
  PatchedFile.is_rename patched_file = true ->
  FileAnalysis.old_path (_analyze_file patched_file)
  = Some (PatchedFile.source_file patched_file).
Proof.
  intros H. destruct (analyze_fields patched_file) as (_ & _ & _ & _ & Hold).
  rewrite Hold, H. reflexivity.
Qed.

Lemma get_file_analysis_without_hunks (self : DiffParser.t) (file_path : string)
    (patched_file : PatchedFile.t) :
  _find_file self file_path = Some patched_file ->
  PatchedFile.hunks patched_file = [] ->
  get_file_analysis self file_path = None.
Proof.
  intros Hfind Hhunks. unfold get_file_analysis. rewrite Hfind.
  unfold PatchedFile.truthy. rewrite Hhunks. simpl.
  destruct (negb (Py.truthy_list (patch_set self))); reflexivity.
Qed.

(** C7.  For the diff git writes when [old.py] is renamed to [new.py] without
    line changes, the one analysis of [get_all_file_analyses] is that of a
    renamed file without additions and deletions, its prior path is
    [a/old.py], the source name with the prefix of the header, and
    [get_file_analysis] has no analysis for [new.py], the path [get_files]
    lists. *)
Theorem rename_analysis :
  exists p fa,
    DiffParser.__init__ PatchSet.new rename_diff = Returns p
    /\ get_files p = ["new.py"]
    /\ get_all_file_analyses p = [fa]
    /\ FileAnalysis.file_path fa = "new.py"
    /\ FileAnalysis.is_renamed fa = true
    /\ FileAnalysis.additions fa = 0
    /\ FileAnalysis.deletions fa = 0
    /\ FileAnalysis.old_path fa = Some "a/old.py"
    /\ FileAnalysis.old_path fa <> Some "old.py"
    /\ get_file_analysis p "new.py" = None.
Proof.
  exists (Samples.parser_of rename_diff).
  exists (Samples.first_analysis (Samples.parser_of rename_diff)).
  vm_compute. repeat split; try reflexivity. discriminate.
Qed.

(** ** Malformed input *)

(** Inside a hunk a line that starts with none of the markers raises: it is
    not taken for a context line. *)
Lemma hunk_line_unknown_marker (st : PatchSet.state) (oh : PatchSet.open_hunk)
    (c : ascii) (rest : string) :
  Py.mem_char c "- +\" = false -> c <> Py.CR -> c <> Py.LF ->
  PatchSet.hunk_line st oh (String c rest)
  = Raises (UnidiffParseError ("Hunk diff line expected: " +:+ String c rest)).
Proof.
  intros Hmarker Hcr Hlf.
  assert (Hbody : re.match_ RE_HUNK_BODY_LINE (String c rest) = None).
  { unfold re.match_, RE_HUNK_BODY_LINE, re.one, re.one_of. cbn [re.cat fold_right re.run].
    cbn [re.span]. rewrite Hmarker. reflexivity. }
  assert (Hempty : re.match_ RE_HUNK_EMPTY_BODY_LINE (String c rest) = None).
  { unfold re.match_, RE_HUNK_EMPTY_BODY_LINE, re.maybe, re.one_of.
    cbn [re.cat fold_right re.run]. cbn [re.span]. rewrite Hmarker.
    cbn [re.greedily Nat.ltb Nat.leb re.drop re.run re.span Py.mem_char].
    apply Ascii.eqb_neq in Hcr, Hlf. rewrite Hcr, Hlf. reflexivity. }
  unfold PatchSet.hunk_line. rewrite Hbody, Hempty. reflexivity.
Qed.












(** Further input on which the constructor raises. *)
Example init_raises_on_hunk_without_file :
  DiffParser.__init__ PatchSet.new (Samples.text ["@@ -1 +1 @@"; "-a"; "+b"])
  = Raises (UnidiffParseError ("Unexpected hunk found: " +:+ Samples.text ["@@ -1 +1 @@"])).
Proof. vm_compute. reflexivity. Qed.

(** ** The matcher and the names it captures *)

Lemma greedily_some {R : Type} (k : nat -> option R) (lo : nat) (res : R) :
  forall n, re.greedily k lo n = Some res ->
            exists i, (lo <= i <= n)%nat /\ k i = Some res.
Proof.
  induction n as [|n IH]; cbn [re.greedily].
  - destruct (0 <? lo)%nat eqn:Hlo; [discriminate|].
    apply Nat.ltb_ge in Hlo.
    destruct (k 0%nat) eqn:Hk; [|discriminate].
    intros [= <-]. exists 0%nat. split; [lia | assumption].
  - destruct (S n <? lo)%nat eqn:Hlo; [discriminate|].
    apply Nat.ltb_ge in Hlo.
    destruct (k (S n)) eqn:Hk.
    + intros [= <-]. exists (S n). split; [lia | assumption].
    + intros H. destruct (IH H) as [i [Hi Hki]]. exists i. split; [lia | assumption].
Qed.

Lemma span_take (p : ascii -> bool) :
  forall (s : string) (hi : option nat) (i : nat),
    (i <= re.span p hi s)%nat ->
    String.length (re.take i s) = i
    /\ forallb p (list_ascii_of_string (re.take i s)) = true
    /\ (String.length (re.drop i s) + i)%nat = String.length s.
Proof.
  induction s as [|c s IH]; intros hi i Hi.
  - assert (i = 0%nat) as -> by (destruct hi as [[|h]|]; simpl in Hi; lia).
    repeat split.
  - destruct i as [|i]; [repeat split; simpl; lia|].
    assert (Hc : p c = true /\ (i <= re.span p (option_map Nat.pred hi) s)%nat).
    { destruct hi as [[|h]|]; cbn [re.span] in Hi; try lia;
        destruct (p c); try lia; split; try reflexivity; lia. }
    destruct Hc as [Hc Hi'].
    destruct (IH _ _ Hi') as (Hlen & Hall & Hdrop).
    cbn [re.take re.drop String.length list_ascii_of_string forallb].
    rewrite Hlen, Hc, Hall. repeat split. lia.
Qed.

Lemma run_binds (r : re.t) :
  forall s g k res,
    re.run r s g k = Some res ->
    exists s' g', binds r g g' /\ k s' g' = Some res.
Proof.
  induction r as [| l | p lo hi | r1 IH1 r2 IH2 | r1 IH1 | name r1 IH1 |];
    intros s g k res; cbn [re.run binds].
  - intros H. exists s, g. split; [reflexivity | assumption].
  - destruct (String.prefix l s); [|discriminate].
    intros H. eexists _, g. split; [reflexivity | eassumption].
  - intros H. apply greedily_some in H. destruct H as [i [_ H]].
    eexists _, g. split; [reflexivity | eassumption].
  - intros H. apply IH1 in H. destruct H as (s1 & g1 & Hb1 & H).
    apply IH2 in H. destruct H as (s2 & g2 & Hb2 & H).
    exists s2, g2. split; [exists g1; split; assumption | assumption].
  - destruct (re.run r1 s g k) as [x|] eqn:H1.
    + intros [= <-]. apply IH1 in H1. destruct H1 as (s1 & g1 & Hb1 & H).
      exists s1, g1. split; [left; assumption | assumption].
    + intros H. exists s, g. split; [right; reflexivity | assumption].
  - intros H.
    assert (Hgen : exists s' g1 w,
               binds r1 g g1 /\ captured r1 w /\ k s' ((name, w) :: g1) = Some res).
    { destruct r1 as [| l | p lo hi | ra rb | ra | inner ra |];
        try (apply IH1 in H; destruct H as (s1 & g1 & Hb1 & H);
             eexists s1, g1, _; split; [exact Hb1 | split; [exact I | exact H]]).
      cbn [re.run] in H. apply greedily_some in H. destruct H as [i [Hi H]].
      destruct (span_take p s hi i (proj2 Hi)) as (Hlen & Hall & Hdrop).
      replace (String.length s - String.length (re.drop i s))%nat with i in H by lia.
      eexists _, g, _. split; [reflexivity|]. split; [|exact H].
      cbn [captured]. rewrite Hlen. split; [lia | assumption]. }
    destruct Hgen as (s' & g1 & w & Hb & Hc & Hk).
    exists s', ((name, w) :: g1). split; [|assumption].
    exists g1, w. repeat split; assumption.
  - destruct (String.eqb s "" || String.eqb s (String Py.LF "")); [|discriminate].
    intros H. exists s, g. split; [reflexivity | assumption].
Qed.

Lemma first_some_in {A : Type} (l : list (option A)) (a : A) :
  PyStr.first_some l = Some a -> In (Some a) l.
Proof.
  induction l as [|[x|] l IH]; cbn [PyStr.first_some]; [discriminate | |].
  - intros [= <-]. left. reflexivity.
  - intros H. right. apply IH. assumption.
Qed.

(** What a match of a pattern of the table leaves in group 1. *)
Lemma match_pattern_name (p : pattern) (s : string) (g : re.groups) :
  In p all_patterns ->
  match_pattern p s = Some g ->
  exists w, re.group g "1" = Some w /\ w <> ""
            /\ forallb PyStr.isword (list_ascii_of_string w) = true.
Proof.
  intros Hin Hmatch. unfold match_pattern in Hmatch.
  apply run_binds in Hmatch. destruct Hmatch as (s1 & g1 & Hlead & Hrest).
  apply first_some_in in Hrest. apply in_app_or in Hrest.
  assert (Hbinds : exists g0, g1 = [] /\
            (binds (rest p) g1 g0 \/ exists w, In w (optional_words p)
                                       /\ binds (re.Seq (re.Lit w) (rest p)) g1 g0)
            /\ g = g0).
  { assert (Hg1 : g1 = []).
    { cbn in Hin. intuition (subst p; exact Hlead). }
    destruct Hrest as [Hopt | [Hplain | []]].
    - apply in_map_iff in Hopt. destruct Hopt as (w & Hrun & Hw).
      apply run_binds in Hrun. destruct Hrun as (s2 & g2 & Hb & [= <-]).
      exists g2. split; [assumption|]. split; [right; exists w; tauto | reflexivity].
    - apply run_binds in Hplain.
      destruct Hplain as (s2 & g2 & Hb & [= <-]).
      exists g2. split; [assumption|]. split; [left; assumption | reflexivity]. }
  destruct Hbinds as (g0 & -> & Hb & ->).
  assert (Hshape : exists w, g0 = [("1", w)] /\ captured (re.plus PyStr.isword) w).
  { cbn in Hin.
    destruct Hin as [<- | [<- | [<- | [<- | [<- | [<- | []]]]]]];
      (destruct Hb as [Hb | (w0 & Hw0 & Hb)]; [| try (destruct Hw0; fail)]);
      cbn in Hb; decompose [ex and] Hb; subst; eexists; split; try reflexivity;
      cbn; tauto. }
  destruct Hshape as (w & -> & Hlen & Hall).
  exists w. split; [reflexivity|]. split; [|assumption].
  intros ->. simpl in Hlen. lia.
Qed.

(** ** Function changes *)

Lemma pattern_fold_in (line : Line.t) (fc : FunctionChange.t) (ps : list pattern) :
  forall acc,
    In fc (fold_left
             (fun changes p =>
                match match_pattern p (Line.value line) with
                | Some g => changes ++ [_function_change line g]
                | None => changes
                end) ps acc) ->
    In fc acc
    \/ exists p g, In p ps /\ match_pattern p (Line.value line) = Some g
                   /\ fc = _function_change line g.
Proof.
  induction ps as [|p ps IH]; intros acc; cbn [fold_left]; [tauto|].
  intros H. apply IH in H. destruct H as [H | (q & g & Hq & Hm & Hfc)].
  - destruct (match_pattern p (Line.value line)) as [g|] eqn:Hm; [|tauto].
    apply in_app_or in H. destruct H as [H | [<- | []]]; [tauto|].
    right. exists p, g. split; [left; reflexivity | tauto].
  - right. exists q, g. split; [right; assumption | tauto].
Qed.

Lemma function_fold_in (ps : list pattern) (fc : FunctionChange.t) (ls : list Line.t) :
  forall acc,
    In fc (fold_left (_function_step ps) ls acc) ->
    In fc acc
    \/ exists line p g,
         In line ls /\ is_changed line = true /\ In p ps
         /\ match_pattern p (Line.value line) = Some g /\ fc = _function_change line g.
Proof.
  induction ls as [|l ls IH]; intros acc; cbn [fold_left]; [tauto|].
  intros H. apply IH in H.
  destruct H as [H | (line & p & g & Hin & Hrest)].
  - unfold _function_step in H. fold (is_changed l) in H.
    destruct (is_changed l) eqn:Hch; [|tauto].
    apply pattern_fold_in in H. destruct H as [H | (p & g & Hp & Hm & Hfc)]; [tauto|].
    right. exists l, p, g. split; [left; reflexivity | tauto].
  - right. exists line, p, g. split; [right; assumption | assumption].
Qed.

Lemma pattern_fold_length (line : Line.t) (ps : list pattern) :
  forall acc,
    (length (fold_left
               (fun changes p =>
                  match match_pattern p (Line.value line) with
                  | Some g => changes ++ [_function_change line g]
                  | None => changes
                  end) ps acc)
     <= length acc + length ps)%nat.
Proof.
  induction ps as [|p ps IH]; intros acc; cbn [fold_left length]; [lia|].
  etransitivity; [apply IH|].
  destruct (match_pattern p (Line.value line)); [rewrite length_app; simpl|]; lia.
Qed.

Lemma function_fold_length (ps : list pattern) (ls : list Line.t) :
  forall acc,
    (length (fold_left (_function_step ps) ls acc)
     <= length acc + length ps * length (List.filter is_changed ls))%nat.
Proof.
  induction ls as [|l ls IH]; intros acc; cbn [fold_left List.filter]; [lia|].
  etransitivity; [apply IH|].
  unfold _function_step. fold (is_changed l).
  destruct (is_changed l); cbn [length]; [|lia].
  pose proof (pattern_fold_length l ps acc). lia.
Qed.

Lemma file_ext_listed (file_path ext : string) :
  _file_ext file_path = Some ext ->
  incl (_patterns ext) all_patterns /\ (length (_patterns ext) <= 2)%nat.
Proof.
  unfold _file_ext. destruct (List.find _ function_patterns) as [entry|] eqn:Hfind;
    [|discriminate].
  intros [= <-]. apply find_some in Hfind. destruct Hfind as [Hin _].
  cbn in Hin. destruct Hin as [<- | [<- | [<- | [<- | []]]]];
    (split; [intros p Hp; cbn in Hp |- *; tauto | cbn; lia]).
Qed.

Lemma file_ext_unsupported (file_path : string) :
  PyStr.endswith file_path ".py" = false ->
  PyStr.endswith file_path ".js" = false ->
  PyStr.endswith file_path ".java" = false ->
  PyStr.endswith file_path ".go" = false ->
  _file_ext file_path = None.
Proof.
  intros Hpy Hjs Hjava Hgo. unfold _file_ext, function_patterns.
  cbn [List.find fst]. rewrite Hpy, Hjs, Hjava, Hgo. reflexivity.
Qed.

Lemma count_changed (ls : list Line.t) :
  (length (List.filter is_changed ls)
   <= length (List.filter Line.is_added ls) + length (List.filter Line.is_removed ls))%nat.
Proof.
  induction ls as [|l ls IH]; [reflexivity|].
  cbn [List.filter]. unfold is_changed at 1.
  destruct (Line.is_added l), (Line.is_removed l); cbn [orb length]; lia.
Qed.

(** X1.  [extract_function_changes] returns the empty list for a path that is
    not one of [get_files] and for a path that ends in none of [.py], [.js],
    [.java] and [.go], whatever the lines of the file. *)
Theorem extract_function_changes_nothing (self : DiffParser.t) (file_path : string) :
  occurrences file_path (get_files self) = 0%nat
  \/ (PyStr.endswith file_path ".py" = false /\ PyStr.endswith file_path ".js" = false
      /\ PyStr.endswith file_path ".java" = false /\ PyStr.endswith file_path ".go" = false) ->
  extract_function_changes self file_path = [].
Proof.
  unfold extract_function_changes. intros [Habsent | (Hpy & Hjs & Hjava & Hgo)].
  - rewrite get_files_map in Habsent.
    rewrite _find_file_find, (find_absent _ _ Habsent). reflexivity.
  - rewrite (file_ext_unsupported _ Hpy Hjs Hjava Hgo).
    destruct (_find_file self file_path) as [f|]; [|reflexivity].
    destruct (negb (PatchedFile.truthy f)); reflexivity.
Qed.

Lemma extract_function_changes_nothing_witness :
  get_files (Samples.parser_of notes_diff) = ["notes.txt"]
  /\ FileAnalysis.additions (Samples.first_analysis (Samples.parser_of notes_diff)) = 1
  /\ extract_function_changes (Samples.parser_of notes_diff) "notes.txt" = []
  /\ extract_function_changes (Samples.parser_of notes_diff) "other.py" = [].
Proof.
  split; [vm_compute; reflexivity|]. split; [vm_compute; reflexivity|]. split.
  - apply extract_function_changes_nothing. right. vm_compute. repeat split.
  - apply extract_function_changes_nothing. left. vm_compute. reflexivity.
Defined.

(** X2.  Every function change reported comes from an added or a removed line
    of the file found for the path, never from a context line: its kind is
    that of the line, its name is a word of at least one character, and its
    content is the line without the white space around it. *)
Theorem extract_function_changes_entries (self : DiffParser.t) (file_path : string)
    (fc : FunctionChange.t) :
  In fc (extract_function_changes self file_path) ->
  (FunctionChange.change_type fc = "added" \/ FunctionChange.change_type fc = "removed")
  /\ FunctionChange.function_name fc <> ""
  /\ forallb PyStr.isword (list_ascii_of_string (FunctionChange.function_name fc)) = true
  /\ exists patched_file line,
       _find_file self file_path = Some patched_file
       /\ In line (all_lines patched_file)
       /\ (Line.is_added line = true \/ Line.is_removed line = true)
       /\ (FunctionChange.change_type fc = "added" <-> Line.is_added line = true)
       /\ FunctionChange.content fc = Py.strip (Line.value line)
       /\ FunctionChange.line_number fc
          = PyStr.or_opt (Line.target_line_no line) (Line.source_line_no line).
Proof.
  unfold extract_function_changes.
  destruct (_find_file self file_path) as [f|]; [|intros []].
  destruct (negb (PatchedFile.truthy f)); [intros []|].
  destruct (_file_ext file_path) as [ext|] eqn:Hext; [|intros []].
  destruct (negb (Py.truthy_str ext)); [intros []|].
  rewrite for_each_line_flat. intros H.
  apply function_fold_in in H.
  destruct H as [[] | (line & p & g & Hin & Hch & Hp & Hm & ->)].
  destruct (file_ext_listed _ _ Hext) as [Hincl _].
  destruct (match_pattern_name p _ g (Hincl p Hp) Hm) as (w & Hg & Hne & Hword).
  unfold _function_change, PatchSet.group_or. rewrite Hg.
  cbn [FunctionChange.change_type FunctionChange.function_name FunctionChange.content
       FunctionChange.line_number].
  unfold is_changed in Hch. apply orb_prop in Hch.
  split; [destruct (Line.is_added line); tauto|].
  split; [assumption|]. split; [assumption|].
  exists f, line. repeat split; try assumption.
  - destruct (Line.is_added line); [reflexivity | discriminate].
  - intros ->. reflexivity.
Qed.

Lemma extract_function_changes_entries_witness :
  map FunctionChange.function_name
      (extract_function_changes (Samples.parser_of functions_diff) "a.py")
  = ["old_name"; "new_name"; "Foo"]
  /\ map FunctionChange.change_type
         (extract_function_changes (Samples.parser_of functions_diff) "a.py")
     = ["removed"; "added"; "added"]
  /\ forall fc,
       In fc (extract_function_changes (Samples.parser_of functions_diff) "a.py") ->
       FunctionChange.function_name fc <> "".
Proof.
  split; [vm_compute; reflexivity|]. split; [vm_compute; reflexivity|].
  intros fc Hin.
  apply (extract_function_changes_entries (Samples.parser_of functions_diff) "a.py" fc Hin).
Defined.

(** X3.  There are at most two function changes for each added or removed
    line of the file: no more than twice the additions and deletions of its
    analysis, and none when the path has no analysis. *)
Theorem extract_function_changes_bound (self : DiffParser.t) (file_path : string) :
  Z.of_nat (length (extract_function_changes self file_path))
  <= 2 * match get_file_analysis self file_path with
         | Some fa => FileAnalysis.additions fa + FileAnalysis.deletions fa
         | None => 0
         end.
Proof.
  unfold extract_function_changes, get_file_analysis.
  destruct (Py.truthy_list (patch_set self)) eqn:E; cbn [negb].
  2:{ unfold _find_file. rewrite E. reflexivity. }
  destruct (_find_file self file_path) as [f|]; [|reflexivity].
  destruct (PatchedFile.truthy f); cbn [negb]; [|reflexivity].
  destruct (analyze_fields f) as (_ & -> & -> & _).
  rewrite added_count, removed_count.
  destruct (_file_ext file_path) as [ext|] eqn:Hext; [|cbn [length]; lia].
  destruct (negb (Py.truthy_str ext)); [cbn [length]; lia|].
  rewrite for_each_line_flat.
  destruct (file_ext_listed _ _ Hext) as [_ Hlen].
  pose proof (function_fold_length (_patterns ext) (all_lines f) []) as Hfold.
  pose proof (count_changed (all_lines f)) as Hch.
  cbn [length] in Hfold. nia.
Qed.

(** ** The size of a diff *)

Lemma additions_count (patched_file : PatchedFile.t) :
  FileAnalysis.additions (_analyze_file patched_file)
  = Z.of_nat (length (List.filter (has_change_type "added")
                                  (FileAnalysis.line_changes (_analyze_file patched_file))))
  /\ FileAnalysis.deletions (_analyze_file patched_file)
     = Z.of_nat (length (List.filter (has_change_type "removed")
                                     (FileAnalysis.line_changes (_analyze_file patched_file)))).
Proof.
  destruct (analyze_fields patched_file) as (_ & -> & -> & _).
  rewrite line_changes_analyze, added_count, removed_count.
  rewrite (count_kind_number "added" Line.is_added _ (added_kind _)).
  rewrite (count_kind_number "removed" Line.is_removed _ (removed_kind _)).
  split; reflexivity.
Qed.

Lemma count_either {A : Type} (a b : A -> bool) (l : list A) :
  (forall x, a x = true -> b x = false) ->
  length (List.filter (fun x => a x || b x) l)
  = (length (List.filter a l) + length (List.filter b l))%nat.
Proof.
  intros Hab. induction l as [|x l IH]; [reflexivity|].
  cbn [List.filter]. destruct (a x) eqn:Ha.
  - rewrite (Hab x Ha). cbn [orb length]. rewrite IH. reflexivity.
  - destruct (b x); cbn [orb length]; rewrite IH; lia.
Qed.

Lemma kinds_exclusive (lc : LineChange.t) :
  has_change_type "added" lc = true -> has_change_type "removed" lc = false.
Proof.
  unfold has_change_type. intros H. apply String.eqb_eq in H. rewrite H. reflexivity.
Qed.

Lemma changed_total (fs : list PatchedFile.t) :
  Py.sum (map PatchedFile.added fs) + Py.sum (map PatchedFile.removed fs)
  = Z.of_nat
      (length (List.filter (fun lc => has_change_type "added" lc || has_change_type "removed" lc)
                           (List.concat (map FileAnalysis.line_changes
                                             (map _analyze_file fs))))).
Proof.
  induction fs as [|f fs IH]; [reflexivity|].
  cbn [map List.concat]. rewrite !sum_cons, List.filter_app, length_app, Nat2Z.inj_add, <- IH.
  rewrite (count_either _ _ _ kinds_exclusive), Nat2Z.inj_add.
  destruct (additions_count f) as [Hadd Hdel]. rewrite <- Hadd, <- Hdel.
  destruct (analyze_fields f) as (_ & -> & -> & _). lia.
Qed.

(** X4.  [is_large_diff] finds both keys in the statistics, and answers
    whether the line changes of kind added or removed, counted over all the
    files, are more than the threshold. *)
Theorem is_large_diff_counts (self : DiffParser.t) (threshold : Z) :
  is_large_diff self threshold
  = Some (threshold
          <? Z.of_nat
               (length (List.filter
                          (fun lc => has_change_type "added" lc || has_change_type "removed" lc)
                          (all_line_changes self)))).
Proof.
  unfold is_large_diff, all_line_changes.
  rewrite get_statistics_files, get_all_file_analyses_map, <- changed_total.
  rewrite lookup_insert_ne by discriminate. rewrite lookup_insert_eq.
  rewrite !lookup_insert_ne by discriminate. rewrite lookup_insert_eq.
  reflexivity.
Qed.

(** ** Looking up the analysis of a file *)

Lemma find_map {A B : Type} (f : A -> B) (test : B -> bool) (l : list A) :
  List.find test (map f l) = option_map f (List.find (fun x => test (f x)) l).
Proof.
  induction l as [|x l IH]; [reflexivity|].
  cbn [map List.find]. destruct (test (f x)); [reflexivity | exact IH].
Qed.

Lemma find_pointwise {A : Type} (test test' : A -> bool) (l : list A) :
  (forall x, test x = test' x) -> List.find test l = List.find test' l.
Proof.
  intros H. induction l as [|x l IH]; [reflexivity|].
  cbn [List.find]. rewrite H, IH. reflexivity.
Qed.

Lemma find_listed (file_path : string) (fs : list PatchedFile.t) (f : PatchedFile.t) :
  List.find (fun f => String.eqb (PatchedFile.path f) file_path) fs = Some f ->
  In file_path (map PatchedFile.path fs).
Proof.
  intros H. apply find_some in H. destruct H as [Hin Hp].
  apply String.eqb_eq in Hp. rewrite <- Hp. apply in_map. assumption.
Qed.

(** X5.  The analysis [get_file_analysis] returns for a path carries that
    path, and it is the first analysis of that path in
    [get_all_file_analyses]; the path is one of [get_files]. *)
Theorem get_file_analysis_found (self : DiffParser.t) (file_path : string)
    (fa : FileAnalysis.t) :
  get_file_analysis self file_path = Some fa ->
  FileAnalysis.file_path fa = file_path
  /\ In file_path (get_files self)
  /\ List.find (fun a => String.eqb (FileAnalysis.file_path a) file_path)
               (get_all_file_analyses self) = Some fa.
Proof.
  unfold get_file_analysis.
  destruct (negb (Py.truthy_list (patch_set self))); [discriminate|].
  rewrite _find_file_find.
  destruct (List.find _ (files self)) as [f|] eqn:Hfind; [|discriminate].
  destruct (negb (PatchedFile.truthy f)); [discriminate|].
  intros [= <-].
  assert (Hpath : FileAnalysis.file_path (_analyze_file f) = file_path).
  { destruct (analyze_fields f) as [-> _].
    apply find_some in Hfind. apply String.eqb_eq. tauto. }
  split; [assumption|].
  split; [rewrite get_files_map; apply (find_listed _ _ _ Hfind)|].
  rewrite get_all_file_analyses_map, find_map.
  rewrite (find_pointwise
             (fun x => String.eqb (FileAnalysis.file_path (_analyze_file x)) file_path)
             (fun f => String.eqb (PatchedFile.path f) file_path)).
  - rewrite Hfind. reflexivity.
  - intros x. destruct (analyze_fields x) as [-> _]. reflexivity.
Qed.

Lemma get_file_analysis_found_witness :
  get_file_analysis Samples.example_parser "example.py"
  = Some (Samples.first_analysis Samples.example_parser)
  /\ FileAnalysis.file_path (Samples.first_analysis Samples.example_parser) = "example.py"
  /\ In "example.py" (get_files Samples.example_parser).
Proof.
  assert (H : get_file_analysis Samples.example_parser "example.py"
              = Some (Samples.first_analysis Samples.example_parser))
    by (vm_compute; reflexivity).
  split; [exact H|].
  destruct (get_file_analysis_found _ _ _ H) as (Hpath & Hin & _).
  split; assumption.
Defined.

Lemma find_none_absent (file_path : string) (fs : list PatchedFile.t) :
  List.find (fun f => String.eqb (PatchedFile.path f) file_path) fs = None ->
  occurrences file_path (map PatchedFile.path fs) = 0%nat.
Proof.
  unfold occurrences. induction fs as [|f fs IH]; [reflexivity|].
  cbn [map List.filter List.find].
  rewrite (String.eqb_sym (PatchedFile.path f) file_path).
  destruct (String.eqb file_path (PatchedFile.path f)); [discriminate | exact IH].
Qed.

(** X6.  [get_file_analysis] returns [None] in two cases only: the path is not
    one of [get_files], or the first file of that path has no hunk, as a file
    that is renamed or changes its mode without line changes. *)
Theorem get_file_analysis_none (self : DiffParser.t) (file_path : string) :
  get_file_analysis self file_path = None
  <-> occurrences file_path (get_files self) = 0%nat
      \/ exists patched_file,
           _find_file self file_path = Some patched_file
           /\ PatchedFile.hunks patched_file = [].
Proof.
  rewrite get_files_map. split.
  - unfold get_file_analysis.
    destruct (Py.truthy_list (patch_set self)) eqn:E; cbn [negb].
    + rewrite _find_file_find.
      destruct (List.find _ (files self)) as [f|] eqn:Hfind.
      * unfold PatchedFile.truthy. destruct (PatchedFile.hunks f) eqn:Hh; simpl;
          [|discriminate].
        intros _. right. exists f. split; [reflexivity | assumption].
      * intros _. left. apply find_none_absent. assumption.
    + intros _. left. rewrite (files_falsy self E). reflexivity.
  - intros [Habsent | (f & Hfind & Hhunks)].
    + unfold get_file_analysis. rewrite _find_file_find, (find_absent _ _ Habsent).
      destruct (negb (Py.truthy_list (patch_set self))); reflexivity.
    + apply (get_file_analysis_without_hunks self file_path f Hfind Hhunks).
Qed.

Lemma get_file_analysis_none_witness :
  get_files (Samples.parser_of rename_diff) = ["new.py"]
  /\ get_file_analysis (Samples.parser_of rename_diff) "new.py" = None
  /\ get_file_analysis (Samples.parser_of rename_diff) "old.py" = None.
Proof.
  split; [vm_compute; reflexivity|]. split.
  - apply get_file_analysis_none. right. eexists. split; vm_compute; reflexivity.
  - apply get_file_analysis_none. left. vm_compute. reflexivity.
Defined.

(** ** What every line change satisfies *)

Lemma number_lookup (path : string) (ls : list Line.t) :
  forall (position : Z) (i : nat) (lc : LineChange.t),
    number path position ls !! i = Some lc ->
    exists line, ls !! i = Some line
                 /\ lc = _line_change path (position + Z.of_nat i + 1) line.
Proof.
  induction ls as [|l ls IH]; intros position i lc; [destruct i; discriminate|].
  destruct i as [|i]; cbn [number].
  - intros [= <-]. exists l. split; [reflexivity|]. f_equal. lia.
  - intros H. apply (IH (position + 1)) in H. destruct H as (line & Hline & ->).
    exists line. split; [assumption|]. f_equal. lia.
Qed.

Lemma last_char_rstrip (p : ascii -> bool) (s : string) (c : ascii) :
  PatchedFile.last_char (Py.rstrip_by p s) = Some c -> p c = false.
Proof.
  induction s as [|a s IH]; [discriminate|].
  cbn [Py.rstrip_by]. destruct (Py.rstrip_by p s) as [|b r] eqn:Hr.
  - destruct (p a) eqn:Ha; [discriminate|]. intros [= <-]. assumption.
  - intros H. apply IH. exact H.
Qed.

(** X7.  In every analysis each line change carries the path of its file, is
    of kind added, removed or context, has a content that does not end in a
    line feed, and stands in the list at the index its position names:
    [line_changes[position - 1]] is the line change itself. *)
Theorem line_change_invariants (self : DiffParser.t) (fa : FileAnalysis.t)
    (lc : LineChange.t) :
  analysis_of self fa ->
  In lc (FileAnalysis.line_changes fa) ->
  LineChange.file_path lc = FileAnalysis.file_path fa
  /\ (LineChange.change_type lc = "added" \/ LineChange.change_type lc = "removed"
      \/ LineChange.change_type lc = "context")
  /\ PatchedFile.last_char (LineChange.line_content lc) <> Some Py.LF
  /\ 1 <= LineChange.position lc <= Z.of_nat (length (FileAnalysis.line_changes fa))
  /\ FileAnalysis.line_changes fa !! Z.to_nat (LineChange.position lc - 1) = Some lc.
Proof.
  intros Hfa Hin. destruct (analysis_of_file self fa Hfa) as [f [_ ->]].
  destruct (analyze_fields f) as [-> _].
  rewrite line_changes_analyze in *.
  apply list_elem_of_In, list_elem_of_lookup in Hin. destruct Hin as [i Hi].
  pose proof (lookup_lt_Some _ _ _ Hi) as Hlt.
  destruct (number_lookup _ _ _ _ _ Hi) as (line & Hline & Hlc).
  assert (Hpos : LineChange.position lc = Z.of_nat i + 1) by (rewrite Hlc; cbn; lia).
  rewrite Hpos. rewrite length_number in *.
  split; [rewrite Hlc; reflexivity|].
  split; [rewrite Hlc; cbn; destruct (Line.is_added line), (Line.is_removed line); tauto|].
  split.
  - rewrite Hlc. cbn [_line_change LineChange.line_content].
    intros Hlast. apply last_char_rstrip in Hlast. vm_compute in Hlast. discriminate.
  - split; [lia|].
    replace (Z.to_nat (Z.of_nat i + 1 - 1)) with i by lia. exact Hi.
Qed.

Lemma line_change_invariants_witness :
  exists lc,
    analysis_of Samples.example_parser (Samples.first_analysis Samples.example_parser)
    /\ In lc (FileAnalysis.line_changes (Samples.first_analysis Samples.example_parser))
    /\ LineChange.position lc = 3
    /\ LineChange.change_type lc = "added"
    /\ FileAnalysis.line_changes (Samples.first_analysis Samples.example_parser)
         !! Z.to_nat (LineChange.position lc - 1) = Some lc.
Proof.
  eexists.
  assert (Hfa : analysis_of Samples.example_parser
                  (Samples.first_analysis Samples.example_parser))
    by (left; vm_compute; left; reflexivity).
  assert (Hin : In _ (FileAnalysis.line_changes
                        (Samples.first_analysis Samples.example_parser)))
    by (vm_compute; right; right; left; reflexivity).
  split; [exact Hfa|]. split; [exact Hin|].
  split; [reflexivity|]. split; [reflexivity|].
  apply (line_change_invariants _ _ _ Hfa Hin).
Defined.

(** ** What the caller hands to the static analyzer *)

Section Calls.

Context {Issue : Type}.
Variable analyze : string -> string -> string -> list Issue.
Variable suffix : string -> string.
Variable self : DiffParser.t.

(** What one turn of the loop of [_review_pr] adds. *)
Definition turn (analyze' : string -> string -> string -> list Issue)
    (file_path : string) : list Issue :=
  match get_file_analysis self file_path with
  | Some fa =>
      if Py.truthy_str (PRReviewCLI._added_content fa)
      then analyze' (PRReviewCLI._added_content fa) file_path (suffix file_path)
      else []
  | None => []
  end.

Lemma static_fold (paths : list string) :
  forall acc,
    fold_left (PRReviewCLI._static_step analyze suffix self) paths acc
    = acc ++ flat_map (turn analyze) paths.
Proof.
  induction paths as [|p paths IH]; intros acc; cbn [fold_left flat_map].
  - rewrite app_nil_r. reflexivity.
  - rewrite IH. unfold PRReviewCLI._static_step at 1, turn at 2.
    destruct (get_file_analysis self p) as [fa|]; [|reflexivity].
    destruct (Py.truthy_str (PRReviewCLI._added_content fa)).
    + rewrite <- app_assoc. reflexivity.
    + reflexivity.
Qed.

End Calls.

Lemma replay_calls {Issue : Type} (analyze : string -> string -> string -> list Issue)
    (suffix : string -> string) (self : DiffParser.t) (paths : list string) :
  flat_map (fun call => analyze (fst (fst call)) (snd (fst call)) (snd call))
           (flat_map (turn suffix self recorded_call) paths)
  = flat_map (turn suffix self analyze) paths.
Proof.
  induction paths as [|p paths IH]; [reflexivity|].
  cbn [flat_map]. rewrite flat_map_app, IH. f_equal.
  unfold turn. destruct (get_file_analysis self p) as [fa|]; [|reflexivity].
  destruct (Py.truthy_str (PRReviewCLI._added_content fa)); [|reflexivity].
  cbn. rewrite app_nil_r. reflexivity.
Qed.

Lemma added_content_tuples (fa : FileAnalysis.t) :
  PRReviewCLI._added_content fa
  = Py.join (String Py.LF "") (map snd (added_tuples fa)).
Proof.
  unfold PRReviewCLI._added_content, added_tuples. rewrite map_map. reflexivity.
Qed.

(** X8.  The loop of [_review_pr] calls the analyzer, in the order of
    [get_files], once for each listed path that has an analysis with a
    content that is not empty, and with nothing else: the content is the
    added lines of that analysis joined by line feeds, so the file has at
    least one addition, and the type is the suffix of the path.  The issues
    are those of these calls, in their order. *)
Theorem review_static_calls (suffix : string -> string) (self : DiffParser.t) :
  (forall (Issue : Type) (analyze : string -> string -> string -> list Issue),
     PRReviewCLI._static_analysis analyze suffix self
     = flat_map (fun call => analyze (fst (fst call)) (snd (fst call)) (snd call))
                (PRReviewCLI._static_analysis recorded_call suffix self))
  /\ Forall (fun call =>
               In (snd (fst call)) (get_files self)
               /\ snd call = suffix (snd (fst call))
               /\ fst (fst call) <> ""
               /\ exists fa,
                    get_file_analysis self (snd (fst call)) = Some fa
                    /\ 0 < FileAnalysis.additions fa
                    /\ fst (fst call)
                       = Py.join (String Py.LF "") (map snd (added_tuples fa)))
            (PRReviewCLI._static_analysis recorded_call suffix self).
Proof.
  unfold PRReviewCLI._static_analysis. split.
  - intros Issue analyze. rewrite !static_fold. cbn [app]. symmetry. apply replay_calls.
  - rewrite static_fold. cbn [app]. apply List.Forall_forall. intros call Hcall.
    apply in_flat_map in Hcall. destruct Hcall as (p & Hp & Hcall).
    unfold turn in Hcall.
    destruct (get_file_analysis self p) as [fa|] eqn:Hget; [|destruct Hcall].
    destruct (Py.truthy_str (PRReviewCLI._added_content fa)) eqn:Htruthy; [|destruct Hcall].
    destruct Hcall as [<- | []]. cbn [fst snd].
    split; [assumption|]. split; [reflexivity|].
    assert (Hne : PRReviewCLI._added_content fa <> "").
    { intros E. rewrite E in Htruthy. discriminate. }
    split; [assumption|].
    exists fa. split; [exact Hget|]. split; [|apply added_content_tuples].
    assert (Hfa : analysis_of self fa) by (right; exists p; assumption).
    destruct (analysis_of_file self fa Hfa) as [f [_ ->]].
    destruct (additions_count f) as [-> _].
    rewrite added_content_tuples in Hne. unfold added_tuples in Hne.
    destruct (List.filter (has_change_type "added") _); [contradiction Hne; reflexivity|].
    cbn [length]. lia.
Qed.

Lemma review_static_calls_witness :
  PRReviewCLI._static_analysis recorded_call (fun _ => ".py")
    (Samples.parser_of functions_diff)
  = [(Py.join (String Py.LF "") ["    def  new_name(a, b):"; "class Foo(Bar):"],
      "a.py", ".py")]
  /\ PRReviewCLI._static_analysis
       (fun content file_path file_type => [String.length content])
       (fun _ => ".py") (Samples.parser_of functions_diff)
     = [40%nat].
Proof.
  destruct (review_static_calls (fun _ => ".py") (Samples.parser_of functions_diff))
    as [Hreplay _].
  split; [vm_compute; reflexivity|].
  rewrite Hreplay. vm_compute. reflexivity.
Defined.

(** ** The mapping of added lines and the statistics *)

Lemma not_in_occurrences (file_path : string) (paths : list string) :
  ~ In file_path paths -> occurrences file_path paths = 0%nat.
Proof.
  unfold occurrences. induction paths as [|p paths IH]; [reflexivity|].
  intros Hnotin. cbn [List.filter].
  destruct (String.eqb_spec file_path p) as [-> | _].
  - exfalso. apply Hnotin. left. reflexivity.
  - apply IH. intros H. apply Hnotin. right. assumption.
Qed.

Lemma entry_of_unique (fs : list PatchedFile.t) :
  List.NoDup (map PatchedFile.path fs) ->
  forall f, In f fs ->
    last_entry (PatchedFile.path f) fs
    = match added_lines_of f with
      | [] => None
      | v => Some v
      end.
Proof.
  induction fs as [|f0 fs IH]; [intros _ f []|].
  cbn [map]. intros Hnd. apply List.NoDup_cons_iff in Hnd. destruct Hnd as [Hnotin Hnd].
  intros f [<- | Hin]; cbn [last_entry].
  - rewrite (last_entry_absent _ _ (not_in_occurrences _ _ Hnotin)).
    rewrite String.eqb_refl. reflexivity.
  - rewrite (IH Hnd f Hin).
    destruct (added_lines_of f) as [|a v]; [|reflexivity].
    destruct (String.eqb_spec (PatchedFile.path f0) (PatchedFile.path f)) as [Heq|_];
      [|reflexivity].
    exfalso. apply Hnotin. rewrite Heq. apply in_map. assumption.
Qed.

Lemma length_added_lines_of (f : PatchedFile.t) :
  Z.of_nat (length (added_lines_of f)) = PatchedFile.added f.
Proof.
  rewrite added_lines_of_analysis. unfold added_tuples. rewrite length_map.
  destruct (additions_count f) as [<- _]. apply (analyze_fields f).
Qed.

(** X10.  When no path is listed twice, the mapping of added lines and the
    statistics agree: the lengths of the entries of the listed paths, an
    absent path counting for nothing, add up to the additions of
    [get_statistics]. *)
Theorem added_lines_total (self : DiffParser.t) :
  List.NoDup (get_files self) ->
  get_statistics self !! "additions"
  = Some (Py.sum (map (fun file_path =>
                         Z.of_nat (length (default []
                                             (get_added_lines_with_positions self
                                                !! file_path))))
                      (get_files self))).
Proof.
  rewrite get_files_map, get_statistics_files, get_added_lines_fold. intros Hnd.
  rewrite lookup_insert_ne by discriminate. rewrite lookup_insert_eq.
  f_equal. f_equal. rewrite map_map. apply map_ext_in. intros f Hin.
  rewrite lookup_fold_added, lookup_empty, (entry_of_unique _ Hnd f Hin).
  rewrite <- length_added_lines_of.
  destruct (added_lines_of f); reflexivity.
Qed.

Lemma added_lines_total_witness :
  List.NoDup (get_files (Samples.parser_of two_files_diff))
  /\ get_statistics (Samples.parser_of two_files_diff) !! "additions" = Some 2
  /\ get_statistics (Samples.parser_of two_files_diff) !! "additions"
     = Some (Py.sum (map (fun file_path =>
                            Z.of_nat (length (default []
                                                (get_added_lines_with_positions
                                                   (Samples.parser_of two_files_diff)
                                                   !! file_path))))
                         (get_files (Samples.parser_of two_files_diff)))).
Proof.
  assert (Hnd : List.NoDup (get_files (Samples.parser_of two_files_diff))).
  { replace (get_files (Samples.parser_of two_files_diff)) with ["a.py"; "b.py"]
      by (vm_compute; reflexivity).
    repeat constructor; simpl; intuition discriminate. }
  split; [exact Hnd|]. split; [vm_compute; reflexivity|].
  exact (added_lines_total _ Hnd).
Defined.

Lemma number_at_position (path : string) (ls : list Line.t) (lc : LineChange.t) :
  In lc (number path 0 ls) ->
  number path 0 ls !! Z.to_nat (LineChange.position lc - 1) = Some lc.
Proof.
  intros Hin. apply list_elem_of_In, list_elem_of_lookup in Hin. destruct Hin as [i Hi].
  destruct (number_lookup _ _ _ _ _ Hi) as (line & _ & Hlc).
  assert (Hpos : LineChange.position lc = Z.of_nat i + 1) by (rewrite Hlc; cbn; lia).
  rewrite Hpos. replace (Z.to_nat (Z.of_nat i + 1 - 1)) with i by lia. exact Hi.
Qed.

(** X11.  The position of a tuple of the mapping leads back to the line it
    reports: in an analysis of that path the line change at index
    [position - 1] is of kind added and has the target line number and the
    content of the tuple. *)
Theorem added_tuple_position (self : DiffParser.t) (file_path : string)
    (v : list added_line) (t : added_line) :
  get_added_lines_with_positions self !! file_path = Some v ->
  In t v ->
  exists fa lc,
    In fa (get_all_file_analyses self)
    /\ FileAnalysis.file_path fa = file_path
    /\ FileAnalysis.line_changes fa !! Z.to_nat (fst (fst t) - 1) = Some lc
    /\ LineChange.change_type lc = "added"
    /\ t = (LineChange.position lc, LineChange.target_line_no lc,
            LineChange.line_content lc).
Proof.
  rewrite get_added_lines_fold, lookup_fold_added, lookup_empty, get_all_file_analyses_map.
  intros Hv Ht.
  destruct (last_entry file_path (files self)) as [w|] eqn:Hlast; [|discriminate].
  injection Hv as ->.
  destruct (last_entry_Some _ _ _ Hlast) as [_ [f (Hin & Hp & ->)]].
  rewrite added_lines_of_analysis in Ht. unfold added_tuples in Ht.
  apply in_map_iff in Ht. destruct Ht as (lc & <- & Hlc).
  apply filter_In in Hlc. destruct Hlc as [Hlc Hkind].
  exists (_analyze_file f), lc.
  split; [apply in_map; assumption|].
  split; [rewrite <- Hp; apply (analyze_fields f)|].
  split.
  - rewrite line_changes_analyze in *. apply (number_at_position _ _ _ Hlc).
  - split; [apply String.eqb_eq; exact Hkind | reflexivity].
Qed.

Lemma added_tuple_position_witness :
  get_added_lines_with_positions Samples.example_parser !! "example.py"
  = Some [(3, Some 2, "    print(" +:+ Samples.quoted "Hello, World!" +:+ ")");
          (4, Some 3, "    return " +:+ Samples.quoted "greeting");
          (5, Some 4, "")]
  /\ exists fa lc,
       In fa (get_all_file_analyses Samples.example_parser)
       /\ FileAnalysis.line_changes fa !! 3%nat = Some lc
       /\ LineChange.change_type lc = "added"
       /\ LineChange.target_line_no lc = Some 3.
Proof.
  split; [exact added_lines_example|].
  destruct (added_tuple_position Samples.example_parser "example.py" _
              (4, Some 3, "    return " +:+ Samples.quoted "greeting") added_lines_example)
    as (fa & lc & Hin & _ & Hlookup & Hkind & Ht).
  { right. left. reflexivity. }
  exists fa, lc. split; [exact Hin|]. split; [exact Hlookup|]. split; [exact Hkind|].
  injection Ht as _ Htarget _. symmetry. exact Htarget.
Defined.

(** ** The window of a context *)

Lemma context_of_analysis (self : DiffParser.t) (file_path : string)
    (line_number context_lines : Z) :
  get_modified_lines_context self file_path line_number context_lines
  = match get_file_analysis self file_path with
    | None => None
    | Some fa => context_of line_number context_lines fa
    end.
Proof.
  unfold get_modified_lines_context, get_file_analysis.
  destruct (Py.truthy_list (patch_set self)) eqn:E; cbn [negb].
  - destruct (_find_file self file_path) as [f|]; [|reflexivity].
    destruct (PatchedFile.truthy f); cbn [negb]; [|reflexivity].
    apply context_of_file.
  - unfold _find_file. rewrite E. reflexivity.
Qed.

Lemma near_wider (line_number w w' : Z) (lc : LineChange.t) :
  w <= w' -> near line_number w lc = true -> near line_number w' lc = true.
Proof.
  unfold near. intros Hw. destruct (LineChange.target_line_no lc) as [target|]; [|tauto].
  rewrite !andb_true_iff, !Z.leb_le. intros [H1 H2]. split; [assumption | lia].
Qed.

Lemma near_negative (line_number w : Z) (lc : LineChange.t) :
  w < 0 -> near line_number w lc = false.
Proof.
  unfold near. intros Hw. destruct (LineChange.target_line_no lc) as [target|]; [|reflexivity].
  apply andb_false_iff. right. apply Z.leb_gt. lia.
Qed.

Lemma context_of_is_some (line_number w : Z) (fa : FileAnalysis.t) :
  is_Some (context_of line_number w fa)
  <-> exists lc, In lc (FileAnalysis.line_changes fa) /\ near line_number w lc = true.
Proof.
  unfold context_of. split.
  - destruct (List.filter _ _) as [|lc sel] eqn:Hsel; [intros [x Hx]; discriminate|].
    intros _. exists lc. apply filter_In. rewrite Hsel. left. reflexivity.
  - intros (lc & Hin). apply filter_In in Hin.
    destruct (List.filter _ _); [destruct Hin | eexists; reflexivity].
Qed.

(** X12.  The window of [get_modified_lines_context] only widens the context:
    with a negative window there is none, and where a window gives a context
    every larger window gives one too. *)
Theorem lines_context_window (self : DiffParser.t) (file_path : string)
    (line_number w w' : Z) :
  w <= w' ->
  (w' < 0 -> get_modified_lines_context self file_path line_number w' = None)
  /\ (is_Some (get_modified_lines_context self file_path line_number w) ->
      is_Some (get_modified_lines_context self file_path line_number w')).
Proof.
  intros Hw. rewrite !context_of_analysis.
  destruct (get_file_analysis self file_path) as [fa|]; [|split; tauto].
  split.
  - intros Hneg. unfold context_of.
    replace (List.filter (near line_number w') (FileAnalysis.line_changes fa)) with
      (@nil LineChange.t); [reflexivity|].
    symmetry. induction (FileAnalysis.line_changes fa) as [|lc lcs IH]; [reflexivity|].
    cbn [List.filter]. rewrite (near_negative _ _ lc Hneg). exact IH.
  - rewrite !context_of_is_some. intros (lc & Hin & Hnear).
    exists lc. split; [assumption | apply (near_wider _ _ _ _ Hw Hnear)].
Qed.

Lemma lines_context_window_witness :
  get_modified_lines_context Samples.example_parser "example.py" 3 (-1) = None
  /\ is_Some (get_modified_lines_context Samples.example_parser "example.py" 3 0)
  /\ is_Some (get_modified_lines_context Samples.example_parser "example.py" 3 2).
Proof.
  assert (H0 : is_Some (get_modified_lines_context Samples.example_parser "example.py" 3 0))
    by (vm_compute; eexists; reflexivity).
  destruct (lines_context_window Samples.example_parser "example.py" 3 (-1) (-1))
    as [Hneg _]; [lia|].
  destruct (lines_context_window Samples.example_parser "example.py" 3 0 2)
    as [_ Hwider]; [lia|].
  split; [exact (Hneg eq_refl)|]. split; [exact H0 | exact (Hwider H0)].
Defined.
